(** * scatter-svg: loading of point data and construction of the scatter plot

    A shallow embedding of [src/scatter_svg/plot.py] (and of the older
    single-file script [plot-models-scatter.py], whose [load_csv_file] and
    [create_scatter_plot] have the same bodies).

    - Python exceptions are values of [exn]; a computation that may raise
      has type [result A].
    - The libraries the program calls (json, pandas, matplotlib, adjustText)
      are not part of the repository.  [json.loads] and [pd.read_csv] are
      parameters; the calls made on matplotlib objects are recorded, with
      their arguments, in the order the program makes them, and are taken
      to return.
    - The input of [create_scatter_plot] is the documented dict: a list of
      points, each with a label and numeric x and y, and three optional
      texts. *)

From Stdlib Require Import Ascii String QArith Qminmax Qabs.
From stdpp Require Import base option list sorting strings pretty.

Set Default Proof Using "Type".

(** ** Exceptions *)

Inductive exn : Type :=
  | IndexError
  | KeyError (key : string)
  | ZeroDivisionError
  | JSONDecodeError
  | OtherError (name : string).

Global Instance exn_eq_dec : EqDecision exn.
Proof. solve_decision. Defined.

Inductive result (A : Type) : Type :=
  | Ok (a : A)
  | Raise (e : exn).
Global Arguments Ok {A} a.
Global Arguments Raise {A} e.

Global Instance result_ret : MRet result := λ A a, Ok a.
Global Instance result_bind : MBind result := λ A B f m,
  match m with
  | Ok a => f a
  | Raise e => Raise e
  end.
Global Instance result_fmap : FMap result := λ A B f m,
  match m with
  | Ok a => Ok (f a)
  | Raise e => Raise e
  end.

(** ** Strings: [str.lower] and the [in] operator

    The column names are tested against ASCII keywords only, so lowering the
    ASCII capitals is all of [str.lower] that the tests can observe. *)

Definition lower_ascii (c : ascii) : ascii :=
  let n := nat_of_ascii c in
  if (65 <=? n)%nat && (n <=? 90)%nat then ascii_of_nat (n + 32) else c.

Fixpoint lower (s : string) : string :=
  match s with
  | EmptyString => EmptyString
  | String c s' => String (lower_ascii c) (lower s')
  end.

(** [contains needle s] is the Python expression [needle in s]. *)
Fixpoint contains (needle s : string) : bool :=
  String.prefix needle s ||
  match s with
  | EmptyString => false
  | String _ s' => contains needle s'
  end.

(** ** Sequences: indexing and [next] with a default *)

(** [l[i]] for a non-negative index. *)
Definition getitem {A} (l : list A) (i : nat) : result A :=
  match l !! i with
  | Some a => Ok a
  | None => Raise IndexError
  end.

(** [next(it, default)], the iterator given by the elements it will yield. *)
Definition next {A} (it : list A) (default : A) : A :=
  match it with
  | a :: _ => a
  | [] => default
  end.

(** ** The input data

    The dict the loaders return and [create_scatter_plot] consumes:
    ['points'] is required, the three texts are optional keys. *)

Record point (L N : Type) : Type := Point {
  p_label : L;
  p_x : N;
  p_y : N
}.
Global Arguments Point {L N} _ _ _.
Global Arguments p_label {L N} _.
Global Arguments p_x {L N} _.
Global Arguments p_y {L N} _.

Record data (L N : Type) : Type := Data {
  points : list (point L N);
  xlabel : option string;
  ylabel : option string;
  title : option string
}.
Global Arguments Data {L N} _ _ _ _.
Global Arguments points {L N} _.
Global Arguments xlabel {L N} _.
Global Arguments ylabel {L N} _.
Global Arguments title {L N} _.

(** [d.get(key, default)] on an optional key. *)
Definition get (field : option string) (default : string) : string :=
  match field with
  | Some s => s
  | None => default
  end.

(** ** Data frames *)

Module DataFrame.
(** What [pd.read_csv] returns: the header and the data rows, one cell per
    column in each row. *)
Record t (Cell : Type) : Type := Make {
  columns : list string;
  rows : list (list Cell)
}.
Global Arguments Make {Cell} _ _.
Global Arguments columns {Cell} _.
Global Arguments rows {Cell} _.

(** Every row has one cell per column. *)
Definition rectangular {Cell} (df : t Cell) : bool :=
  forallb (λ row, length row =? length (columns df))%nat (rows df).

(** [row[col]] for a row yielded by [df.iterrows()]: the cell under the
    column named [col]. *)
Fixpoint loc {Cell} (cols : list string) (row : list Cell) (col : string)
    : result Cell :=
  match cols, row with
  | c :: cols', v :: row' =>
      if decide (c = col) then Ok v else loc cols' row' col
  | _, _ => Raise (KeyError col)
  end.
End DataFrame.

(** ** Column-name heuristics *)

Definition is_label_col (c : string) : bool :=
  contains "label" (lower c) || contains "name" (lower c).

Definition is_x_col (c : string) : bool :=
  contains "x" (lower c) || contains "speed" (lower c) || contains "time" (lower c).

Definition is_y_col (c : string) : bool :=
  contains "y" (lower c) || contains "quality" (lower c) || contains "tier" (lower c).

Section Loaders.
Context {Cell Json : Type}.

(** [json.loads] on a text, and [pd.read_csv] on a path or on a text
    buffer. *)
Variable json_loads : string → result Json.
Variable read_csv : string → result (DataFrame.t Cell).

(** The list comprehension over [df.iterrows()]. *)
Definition row_point (cols : list string) (label_col x_col y_col : string)
    (row : list Cell) : result (point Cell Cell) :=
  l ← DataFrame.loc cols row label_col;
  x ← DataFrame.loc cols row x_col;
  y ← DataFrame.loc cols row y_col;
  mret (Point l x y).

(** plot.py, lines 120-148.  The second argument of each [next] call is
    evaluated before the call, whether or not a column matches. *)
Definition load_csv_file (filepath : string) : result (data Cell Cell) :=
  df ← read_csv filepath;
  let cols := DataFrame.columns df in
  default ← getitem cols 0;
  let label_col := next (filter is_label_col cols) default in
  default ← getitem cols 1;
  let x_col := next (filter is_x_col cols) default in
  default ← getitem cols 2;
  let y_col := next (filter is_y_col cols) default in
  pts ← mapM (row_point cols label_col x_col y_col) (DataFrame.rows df);
  mret (Data pts (Some x_col) (Some y_col) (Some "Scatter Plot")).

(** What [load_stdin] returns: the parsed JSON document as it is, or the
    dict built from the CSV table. *)
Inductive stdin_data : Type :=
  | FromJson (doc : Json)
  | FromCsv (d : data Cell Cell).

(** plot.py, lines 56-106.  Only [json.JSONDecodeError] is caught. *)
Definition load_stdin (stdin_content : string) : result stdin_data :=
  match json_loads stdin_content with
  | Ok doc => Ok (FromJson doc)
  | Raise JSONDecodeError =>
      df ← read_csv stdin_content;
      let cols := DataFrame.columns df in
      default ← getitem cols 0;
      let label_col := next (filter is_label_col cols) default in
      default ← getitem cols 1;
      let x_col := next (filter is_x_col cols) default in
      default ← getitem cols 2;
      let y_col := next (filter is_y_col cols) default in
      pts ← mapM (row_point cols label_col x_col y_col) (DataFrame.rows df);
      mret (FromCsv (Data pts (Some x_col) (Some y_col) (Some "Scatter Plot")))
  | Raise e => Raise e
  end.
End Loaders.

(** ** matplotlib and adjustText: the calls and their arguments *)

Record bbox_props : Type := BBoxProps {
  boxstyle : string;
  facecolor : string;
  edgecolor : string;
  bbox_alpha : Q
}.

Record arrow_props : Type := ArrowProps {
  arrowstyle : string;
  color : string;
  lw : Q;
  arrow_alpha : Q
}.

(** The keyword arguments of [adjust_text]. *)
Record adjust_kwargs : Type := AdjustKwargs {
  arrowprops : arrow_props;
  expand_points : Q * Q;
  expand_text : Q * Q;
  force_points : Q * Q;
  force_text : Q * Q;
  lim : nat
}.

(** The [c] argument of [ax.scatter]: the colormap applied to a list of
    fractions, or a colour name. *)
Inductive colors : Type :=
  | Viridis (fractions : list Q)
  | ColorName (name : string).

Record scatter_kwargs : Type := ScatterKwargs {
  s : Z;
  c : colors;
  alpha : Q;
  edgecolors : string;
  linewidth : Q;
  zorder : Z
}.

(** The process-wide state of [matplotlib.pyplot]: the style sheets applied
    so far (latest first) and the number of figures opened. *)
Record pyplot : Type := PyPlot {
  rc_styles : list string;
  fignums : nat
}.

Record Figure : Type := MkFigure {
  number : nat;
  fig_figsize : Q * Q;
  fig_rc : list string
}.

(** [a / b] on two ints: the exact quotient (Python rounds it to the nearest
    double). *)
Definition truediv (a b : nat) : result Q :=
  match b with
  | O => Raise ZeroDivisionError
  | S _ => Ok (Z.of_nat a # Pos.of_nat b)
  end.

Section Plot.
Context {L N : Type} `{EqDecision N}.

(** [L] is the type of the labels and [N] that of the coordinates: numbers,
    with Python's [==] as the decidable equality (so without NaN).  On
    them: Python's [<=], [int(y)], an int seen as a coordinate (for
    [y == int(y)]) and [str(y)]. *)
Variable leb : N → N → bool.
Variable to_int : N → Z.
Variable of_int : Z → N.
Variable str : N → string.

(** A text artist, as [ax.text] creates it. *)
Record Text : Type := MkText {
  text_x : N;
  text_y : N;
  text_s : L;
  fontsize : Z;
  ha : string;
  va : string;
  bbox : bbox_props
}.

Inductive call : Type :=
  | plt_style_use (style : string)
  | plt_subplots (figsize : Q * Q)
  | ax_scatter (x y : list N) (kw : scatter_kwargs)
  | ax_text (t : Text)
  | adjust_text (texts : list Text) (kw : adjust_kwargs)
  | ax_set_xlabel (label : string) (size : Z) (fontweight : string)
  | ax_set_ylabel (label : string) (size : Z) (fontweight : string)
  | ax_set_title (label : string) (size : Z) (fontweight : string) (pad : Z)
  | ax_grid (visible : bool) (grid_alpha : Q) (linestyle : string)
      (grid_linewidth : Q) (grid_zorder : Z)
  | ax_set_axisbelow (b : bool)
  | ax_set_yticks (ticks : list N)
  | ax_set_yticklabels (labels : list string)
  | plt_tight_layout.

(** A computation that may raise, reads and updates the pyplot state, and
    makes library calls. *)
Definition plt (A : Type) : Type := pyplot → result (A * pyplot * list call).

Definition plt_ret {A} (a : A) : plt A := λ w, Ok (a, w, []).
Definition plt_bind {A B} (m : plt A) (f : A → plt B) : plt B := λ w,
  match m w with
  | Ok (a, w', cs) =>
      match f a w' with
      | Ok (b, w'', cs') => Ok (b, w'', cs ++ cs')
      | Raise e => Raise e
      end
  | Raise e => Raise e
  end.
Definition lift {A} (m : result A) : plt A := λ w,
  match m with
  | Ok a => Ok (a, w, [])
  | Raise e => Raise e
  end.
Definition emit (cl : call) : plt unit := λ w, Ok ((), w, [cl]).

Notation "x <- m ;; k" := (plt_bind m (λ x, k))
  (at level 100, m at next level, right associativity).
Notation "m ;; k" := (plt_bind m (λ _, k))
  (at level 100, right associativity).

Fixpoint plt_map {A B} (f : A → plt B) (l : list A) : plt (list B) :=
  match l with
  | [] => plt_ret []
  | a :: l' => b <- f a;; bs <- plt_map f l';; plt_ret (b :: bs)
  end.

(** [plt.style.use(style)] changes the global rc parameters. *)
Definition style_use (style : string) : plt unit := λ w,
  Ok ((), PyPlot (style :: rc_styles w) (fignums w), [plt_style_use style]).

(** [plt.subplots(figsize=figsize)] opens a new figure with one axes. *)
Definition subplots (figsize : Q * Q) : plt Figure := λ w,
  Ok (MkFigure (S (fignums w)) figsize (rc_styles w),
      PyPlot (rc_styles w) (S (fignums w)), [plt_subplots figsize]).

(** [ax.text(x, y, label, ...)] creates the artist and returns it. *)
Definition text (t : Text) : plt Text := emit (ax_text t);; plt_ret t.

(** [set(l)], by the distinct elements of [l]; [sorted]; [l.index(y)];
    [zip] of three lists. *)
Definition set_ (l : list N) : list N := remove_dups l.
Definition sorted (l : list N) : list N := merge_sort (λ a b, leb a b) l.
Definition index (y : N) (l : list N) : result nat :=
  match list_find (λ v, v = y) l with
  | Some (i, _) => Ok i
  | None => Raise (OtherError "ValueError")
  end.
Fixpoint zip3 {A B C} (la : list A) (lb : list B) (lc : list C)
    : list (A * B * C) :=
  match la, lb, lc with
  | a :: la', b :: lb', c :: lc' => (a, b, c) :: zip3 la' lb' lc'
  | _, _, _ => []
  end.

(** The expression given to [set_yticklabels] for one tick. *)
Definition tick_label (y : N) : string :=
  if decide (y = of_int (to_int y)) then "Tier " +:+ pretty (to_int y)
  else str y.

(** plot.py, lines 204-283. *)
Definition create_scatter_plot (d : data L N) (figsize : Q * Q)
    (style : string) : plt Figure :=
  (if decide (style ≠ "default") then style_use style else plt_ret ());;
  fig <- subplots figsize;;
  let points := points d in
  let x_values := p_x <$> points in
  let y_values := p_y <$> points in
  let labels := p_label <$> points in
  let unique_y := sorted (set_ y_values) in
  colors <-
    (if (length unique_y <=? 10)%nat then
       fracs <- lift (mapM (λ y, i ← index y y_values;
                                  truediv i (length unique_y)) y_values);;
       plt_ret (Viridis fracs)
     else plt_ret (ColorName "steelblue"));;
  emit (ax_scatter x_values y_values
          (ScatterKwargs 100 colors 0.6 "white" 1.5 2));;
  texts <-
    plt_map (λ '(x, y, label),
               text (MkText x y label 8 "center" "center"
                       (BBoxProps "round,pad=0.3" "white" "none" 0.7)))
            (zip3 x_values y_values labels);;
  emit (adjust_text texts
          (AdjustKwargs (ArrowProps "->" "gray" 0.5 0.5)
             (1.5, 1.5)%Q (1.2, 1.2)%Q (0.5, 0.5)%Q (0.5, 0.5)%Q 500));;
  emit (ax_set_xlabel (get (xlabel d) "X") 12 "bold");;
  emit (ax_set_ylabel (get (ylabel d) "Y") 12 "bold");;
  emit (ax_set_title (get (title d) "Scatter Plot") 14 "bold" 20);;
  emit (ax_grid true 0.3 "--" 0.5 1);;
  emit (ax_set_axisbelow true);;
  (if (length unique_y <=? 10)%nat then
     emit (ax_set_yticks unique_y);;
     emit (ax_set_yticklabels (tick_label <$> unique_y))
   else plt_ret ());;
  emit plt_tight_layout;;
  plt_ret fig.
End Plot.

(** ** The label layout solver

    [adjust_text] comes from the adjustText package; its code is not in the
    repository.  The solver below follows sections 3, 4.1 and 7 of the
    specification.  The constants the specification leaves to the implementer
    are the fields of [tuning]. *)

Module Solver.
Local Open Scope Q_scope.

(** Modelled from the spec: the AnchorPoint of section 3, the fixed data
    location a label describes (the solver itself is absent from src/). *)
Record AnchorPoint : Type := MkAnchor {
  id : nat;
  x : Q;
  y : Q
}.

(** Modelled from the spec: the LabelBox of section 3; [bx], [by_] is the
    centre of the box. *)
Record LabelBox : Type := MkBox {
  anchor_id : nat;
  width : Q;
  height : Q;
  bx : Q;
  by_ : Q
}.

(** Modelled from the spec: the transient Force vector of section 3. *)
Definition Force : Type := Q * Q.

(** Modelled from the spec: the repulsion configuration of section 4.1. *)
Record Config : Type := MkConfig {
  expand_points : Q * Q;
  expand_text : Q * Q;
  force_points : Q * Q;
  force_text : Q * Q;
  max_iterations : nat
}.

(** Modelled from the spec: the constants it leaves to the implementer: the
    minimum dimension and jitter, the side of a point's exclusion zone, the
    bound on one step, the convergence threshold and the distance from
    which a connector is drawn. *)
Record tuning : Type := MkTuning {
  epsilon : Q;
  point_size : Q;
  max_step : Q;
  threshold : Q;
  connector_distance : Q
}.

(** Modelled from the spec: section 7, a zero or negative dimension is
    clamped to a minimum epsilon. *)
Definition clamp_dim (t : tuning) (v : Q) : Q := Qmax v (epsilon t).

(** Modelled from the spec: step 1, a LabelBox centred on its AnchorPoint. *)
Definition init_box (t : tuning) (a : AnchorPoint * (Q * Q)) : LabelBox :=
  MkBox (id a.1) (clamp_dim t a.2.1) (clamp_dim t a.2.2) (x a.1) (y a.1).

(** Modelled from the spec: overlap depth on one axis of two extents given
    by centre and half length; positive when they overlap. *)
Definition depth (c1 h1 c2 h2 : Q) : Q :=
  Qmin (c1 + h1) (c2 + h2) - Qmax (c1 - h1) (c2 - h2).

(** Modelled from the spec: the strict comparison its tests on depths,
    displacements and distances need. *)
Definition Qltb (a b : Q) : bool := negb (Qle_bool b a).

(** Modelled from the spec: the side to push to; equal centres are
    separated by the order of the ids (the symmetry-breaking jitter). *)
Definition side (c1 c2 : Q) (i j : nat) : Q :=
  if Qltb c1 c2 then -1
  else if Qltb c2 c1 then 1
  else if (i <? j)%nat then -1 else 1.

(** Modelled from the spec: step 2a, the force on a box from an
    overlapping rectangle, proportional to the overlap depth and scaled by
    the force factors, both rectangles inflated by the expansion factors. *)
Definition repulsion (expand force : Q * Q) (b : LabelBox)
    (j : nat) (cx cy w h : Q) : Force :=
  let hx1 := width b * expand.1 / 2 in
  let hy1 := height b * expand.2 / 2 in
  let hx2 := w * expand.1 / 2 in
  let hy2 := h * expand.2 / 2 in
  let dx := depth (bx b) hx1 cx hx2 in
  let dy := depth (by_ b) hy1 cy hy2 in
  if Qltb 0 dx && Qltb 0 dy then
    (side (bx b) cx (anchor_id b) j * dx * force.1,
     side (by_ b) cy (anchor_id b) j * dy * force.2)
  else (0, 0).

(** Modelled from the spec: forces are accumulated componentwise. *)
Definition add_force (f g : Force) : Force := (f.1 + g.1, f.2 + g.2).

(** Modelled from the spec: step 2b, the sum of the forces on one label
    from the other labels and from the exclusion zones of the other
    anchors. *)
Definition net_force (t : tuning) (cfg : Config)
    (anchors : list AnchorPoint) (boxes : list LabelBox) (b : LabelBox)
    : Force :=
  let from_text :=
    (λ o : LabelBox,
       if decide (anchor_id o = anchor_id b) then (0, 0)
       else repulsion (expand_text cfg) (force_text cfg) b
              (anchor_id o) (bx o) (by_ o) (width o) (height o)) <$> boxes in
  let from_points :=
    (λ a : AnchorPoint,
       if decide (id a = anchor_id b) then (0, 0)
       else repulsion (expand_points cfg) (force_points cfg) b
              (id a) (x a) (y a) (point_size t) (point_size t)) <$> anchors in
  foldr add_force (0, 0) (from_text ++ from_points)%list.

(** Modelled from the spec: step 2b, the displacement of one round is
    bounded by the step size on each axis. *)
Definition bounded (t : tuning) (v : Q) : Q :=
  Qmax (- max_step t) (Qmin v (max_step t)).
Definition step (t : tuning) (f : Force) : Force :=
  (bounded t f.1, bounded t f.2).

(** Modelled from the spec: step 2b, a box is mutated in its position
    only. *)
Definition displace (b : LabelBox) (d : Force) : LabelBox :=
  MkBox (anchor_id b) (width b) (height b) (bx b + d.1) (by_ b + d.2).

(** Modelled from the spec: step 2c, the total displacement of a round. *)
Definition total_displacement (ds : list Force) : Q :=
  foldr (λ d acc, Qabs d.1 + Qabs d.2 + acc) 0 ds.

(** Modelled from the spec: step 2, at most [fuel] rounds, stopping early
    (2c) when the total displacement of a round is below the threshold.
    Returns the boxes, the rounds run and whether the layout converged. *)
Fixpoint relax (t : tuning) (cfg : Config) (anchors : list AnchorPoint)
    (fuel : nat) (boxes : list LabelBox) : list LabelBox * nat * bool :=
  match fuel with
  | O => (boxes, O, false)
  | S fuel' =>
      let moves := (λ b, step t (net_force t cfg anchors boxes b)) <$> boxes in
      let boxes' := zip_with displace boxes moves in
      if Qltb (total_displacement moves) (threshold t) then (boxes', 1%nat, true)
      else
        let '(final, rounds, converged) := relax t cfg anchors fuel' boxes' in
        (final, S rounds, converged)
  end.

(** Modelled from the spec: step 3, a connector from the anchor to the
    nearest point of the label's edge when the label ended farther from
    its anchor than the connector distance. *)
Definition connector (t : tuning) (a : AnchorPoint) (b : LabelBox)
    : option (Q * Q * (Q * Q)) :=
  let dx := bx b - x a in
  let dy := by_ b - y a in
  if Qltb (connector_distance t * connector_distance t) (dx * dx + dy * dy)
  then
    Some (x a, y a,
          (Qmax (bx b - width b / 2) (Qmin (x a) (bx b + width b / 2)),
           Qmax (by_ b - height b / 2) (Qmin (y a) (by_ b + height b / 2))))
  else None.

(** Modelled from the spec: what the solver returns (section 2), with the
    number of rounds run and whether the layout converged. *)
Record Layout : Type := MkLayout {
  boxes : list LabelBox;
  connectors : list (Q * Q * (Q * Q));
  rounds : nat;
  converged : bool
}.

(** Modelled from the spec: the contract of section 4.1, from N anchors
    with their label dimensions and a configuration to N label boxes. *)
Definition solve (t : tuning) (cfg : Config)
    (input : list (AnchorPoint * (Q * Q))) : Layout :=
  let anchors := fst <$> input in
  let '(final, n, conv) :=
    relax t cfg anchors (max_iterations cfg) (init_box t <$> input) in
  MkLayout final
    (omap (λ ab, connector t ab.1 ab.2) (zip anchors final)) n conv.
End Solver.

(** Modelled from the spec: the keyword arguments [adjust_text] is called
    with, read as the solver's configuration; [lim] is the iteration
    budget. *)
Definition solver_config (kw : adjust_kwargs) : Solver.Config :=
  Solver.MkConfig (expand_points kw) (expand_text kw) (force_points kw)
    (force_text kw) (lim kw).

Section Layout.
Context {L N : Type}.

(** The position of a data point on the canvas and the size of a rendered
    label; both come from the renderer. *)
Variable to_canvas : N → N → Q * Q.
Variable extent : L → Q * Q.

(** Modelled from the spec: one anchor per text artist, at the artist's
    position, with the size of its label. *)
Definition anchors_of (texts : list (@Text L N))
    : list (Solver.AnchorPoint * (Q * Q)) :=
  imap (λ i t,
          (Solver.MkAnchor i (to_canvas (text_x t) (text_y t)).1
             (to_canvas (text_x t) (text_y t)).2,
           extent (text_s t))) texts.

(** Modelled from the spec: the layout step (the work of [adjust_text],
    absent from src/) on the arguments of an [adjust_text] call. *)
Definition layout (t : Solver.tuning) (texts : list (@Text L N))
    (kw : adjust_kwargs) : Solver.Layout :=
  Solver.solve t (solver_config kw) (anchors_of texts).
End Layout.

(** ** What the claims say, in their own words *)

(** The column a heuristic is said to choose: the first column whose
    lowercase name contains one of the keywords, else the column at the
    fallback position. *)
Definition claimed_column (keywords : list string) (fallback : nat)
    (cols : list string) : option string :=
  match list_find (λ c, existsb (λ k, contains k (lower c)) keywords) cols with
  | Some (_, c) => Some c
  | None => cols !! fallback
  end.

(** The index of the first point, in input order, that has the y-value [y],
    and the number of distinct y-values. *)
Fixpoint first_position {N} `{EqDecision N} (y : N) (ys : list N) : nat :=
  match ys with
  | [] => 0
  | v :: ys' => if decide (v = y) then 0 else S (first_position y ys')
  end.

Fixpoint distinct_count {N} `{EqDecision N} (ys : list N) : nat :=
  match ys with
  | [] => 0
  | v :: ys' =>
      if decide (v ∈ ys') then distinct_count ys' else S (distinct_count ys')
  end.

(** The colour fraction the claim gives to each point. *)
Definition claimed_fractions {N} `{EqDecision N} (ys : list N) : list Q :=
  (λ y, Z.of_nat (first_position y ys) # Pos.of_nat (distinct_count ys)) <$> ys.

(** ** Reading a run: the calls of each kind, in order *)

Section Calls.
Context {L N : Type}.

Definition scatter_calls (cs : list (@call L N))
    : list (list N * list N * scatter_kwargs) :=
  omap (λ cl, match cl with
              | ax_scatter x y kw => Some (x, y, kw)
              | _ => None
              end) cs.

Definition texts_created (cs : list (@call L N)) : list (@Text L N) :=
  omap (λ cl, match cl with ax_text t => Some t | _ => None end) cs.

Definition adjust_calls (cs : list (@call L N))
    : list (list (@Text L N) * adjust_kwargs) :=
  omap (λ cl, match cl with
              | adjust_text texts kw => Some (texts, kw)
              | _ => None
              end) cs.
End Calls.

(** The text artist for one point, and the keyword arguments of the layout
    call, as written in [create_scatter_plot]. *)
Definition label_text {L N} (p : point L N) : @Text L N :=
  MkText (p_x p) (p_y p) (p_label p) 8 "center" "center"
    (BBoxProps "round,pad=0.3" "white" "none" 0.7).

Definition layout_kwargs : adjust_kwargs :=
  AdjustKwargs (ArrowProps "->" "gray" 0.5 0.5)
    (1.5, 1.5)%Q (1.2, 1.2)%Q (0.5, 0.5)%Q (0.5, 0.5)%Q 500.

(** ** Sample inputs *)

(** Cells of the sample tables: text or integer. *)
Inductive cell : Type :=
  | Str (text : string)
  | Int (z : Z).

Definition newline : string := String (ascii_of_nat 10) EmptyString.

(** The CSV text of tests/test_plot.py, test_load_stdin_csv_custom_columns,
    and the table pandas reads from it. *)
Definition models_csv : string :=
  "name,speed_ms,quality_tier" +:+ newline +:+
  "fast-model,556,5" +:+ newline +:+ "slow-model,1200,3".
Definition models_df : DataFrame.t cell :=
  DataFrame.Make ["name"; "speed_ms"; "quality_tier"]
    [[Str "fast-model"; Int 556; Int 5]; [Str "slow-model"; Int 1200; Int 3]].

(** A header of two columns, each matching a heuristic, and no data row. *)
Definition two_columns_csv : string := "label,xy".
Definition two_columns_df : DataFrame.t cell :=
  DataFrame.Make ["label"; "xy"] [].

(** [json.loads] and [pd.read_csv] on the sample texts: the text [[]] is the
    empty JSON list, the two CSV texts are not JSON. *)
Inductive json_doc : Type := EmptyList.
Definition sample_json_loads (content : string) : result json_doc :=
  if decide (content = "[]") then Ok EmptyList else Raise JSONDecodeError.
Definition sample_read_csv (content : string) : result (DataFrame.t cell) :=
  if decide (content = models_csv) then Ok models_df
  else if decide (content = two_columns_csv) then Ok two_columns_df
  else Raise (OtherError "ParserError").

(** Three points on two tiers, an input without points, and pyplot as a
    new process finds it; the [Z] instance of the y-values takes [int] and
    the conversion back as the identity and [str] as the decimal notation. *)
Definition tiers_data : data string Z :=
  Data [Point "model-a" 100 5; Point "model-b" 200 5; Point "model-c" 300 4]%Z
    None None None.
Definition no_points : data string Z := Data [] None None None.
Definition fresh : pyplot := PyPlot [] 0.

(** Constants, canvas positions and label sizes for the layout solver, and
    the keyword arguments of the layout call with no iteration allowed. *)
Definition sample_tuning : Solver.tuning := Solver.MkTuning 0.01 1 5 0.001 3.
Definition sample_canvas (x y : Z) : Q * Q := (inject_Z x, inject_Z y).
Definition sample_extent (label : string) : Q * Q := (10, 4)%Q.
Definition no_iterations : adjust_kwargs :=
  AdjustKwargs (arrowprops layout_kwargs) (expand_points layout_kwargs)
    (expand_text layout_kwargs) (force_points layout_kwargs)
    (force_text layout_kwargs) 0.

(** ** Loading from files: plot.py, lines 114-201 *)

(** [try: body / except Exception as e: handler(e)]; every exception of
    [exn] is an [Exception]. *)
Definition try_except {A} (body : result A) (handler : exn → result A)
    : result A :=
  match body with
  | Ok a => Ok a
  | Raise e => handler e
  end.

Section Files.
Context {Cell Json : Type}.

(** [json.loads] and [pd.read_csv] as before; [open(filepath).read()], the
    file system staying as it is between two reads; [Path(filepath).suffix];
    [str.strip]. *)
Variable json_loads : string → result Json.
Variable read_csv : string → result (DataFrame.t Cell).
Variable read_file : string → result string.
Variable suffix : string → string.
Variable strip : string → string.

(** plot.py, lines 114-117: [json.load(f)] parses what [f.read()] returns. *)
Definition load_json_file (filepath : string) : result Json :=
  content ← read_file filepath;
  json_loads content.

(** plot.py, lines 151-183. *)
Definition detect_file_format (filepath : string) : result string :=
  if decide (lower (suffix filepath) = ".csv") then mret "csv"
  else if decide (lower (suffix filepath) = ".json") then mret "json"
  else
    try_except
      (content ← strip <$> read_file filepath;
       try_except
         (_ ← json_loads content; mret "json")
         (λ e, if decide (e = JSONDecodeError) then mret "csv" else Raise e))
      (λ _, mret "csv").

(** plot.py, lines 186-201. *)
Definition load_data_file (filepath : string)
    : result (@stdin_data Cell Json) :=
  file_format ← detect_file_format filepath;
  if decide (file_format = "csv")
  then FromCsv <$> load_csv_file read_csv filepath
  else FromJson <$> load_json_file filepath.
End Files.

(** ** Reading a run: the axis texts and the ticks *)

Section MoreCalls.
Context {L N : Type}.

Definition axis_text_calls (cs : list (@call L N)) : list (@call L N) :=
  omap (λ cl, match cl with
              | ax_set_xlabel _ _ _ | ax_set_ylabel _ _ _
              | ax_set_title _ _ _ _ => Some cl
              | _ => None
              end) cs.

Definition tick_calls (cs : list (@call L N)) : list (@call L N) :=
  omap (λ cl, match cl with
              | ax_set_yticks _ | ax_set_yticklabels _ => Some cl
              | _ => None
              end) cs.
End MoreCalls.

(** ** More sample inputs *)

(** A header on which no name holds "x", "speed" or "time" and the second
    name holds a "y". *)
Definition latency_csv : string :=
  "model,latency,accuracy" +:+ newline +:+ "fast-model,556,5".
Definition latency_df : DataFrame.t cell :=
  DataFrame.Make ["model"; "latency"; "accuracy"]
    [[Str "fast-model"; Int 556; Int 5]].
Definition latency_read_csv (source : string) : result (DataFrame.t cell) :=
  if decide (source = latency_csv) then Ok latency_df
  else Raise (OtherError "ParserError").

(** Three files: [broken.json] holds the CSV text above; [listing] holds a
    form feed followed by [[]], which [str.strip] reduces to [[]] and
    [json.loads] refuses as it is; [missing] cannot be opened. *)
Definition form_feed : string := String (ascii_of_nat 12) EmptyString.
Definition sample_read_file (filepath : string) : result string :=
  if decide (filepath = "broken.json") then Ok models_csv
  else if decide (filepath = "listing") then Ok (form_feed +:+ "[]")
  else Raise (OtherError "FileNotFoundError").
Definition sample_suffix (filepath : string) : string :=
  if decide (filepath = "broken.json") then ".json" else "".
Definition sample_strip (text : string) : string :=
  if decide (text = form_feed +:+ "[]") then "[]" else text.
Definition files_read_csv (filepath : string) : result (DataFrame.t cell) :=
  if decide (filepath = "missing") then Raise (OtherError "FileNotFoundError")
  else sample_read_csv filepath.

(** Python's operations on the cells of the sample tables, for plotting
    them: cells of one kind are compared with each other (Python raises on a
    text against an integer; the samples have none). *)
Global Instance cell_eq_dec : EqDecision cell.
Proof. solve_decision. Defined.

(** Three points whose y-values are distinct and not in increasing order,
    and eleven points with eleven y-values. *)
Definition ladder_data : data string Z :=
  Data [Point "model-a" 1 30; Point "model-b" 2 10; Point "model-c" 3 20]%Z
    None None None.
Definition eleven_tiers : data string Z :=
  Data ((λ k : Z, Point "model" k k) <$> [1; 2; 3; 4; 5; 6; 7; 8; 9; 10; 11]%Z)
    None None None.

(** * Properties *)

(** ** The result monad *)

Lemma mapM_result_Ok {A B} (f : A → result B) (l : list A) :
  Forall (λ a, ∃ b, f a = Ok b) l →
  ∃ k, mapM f l = Ok k ∧ Forall2 (λ a b, f a = Ok b) l k.
Proof.
  induction 1 as [|a l [b Hb] _ (k & Hk & IH)]; simpl.
  - exists []. split; [done | constructor].
  - exists (b :: k). unfold mbind, result_bind at 1. rewrite Hb. simpl.
    unfold mbind, result_bind at 1. rewrite Hk. split; [done |].
    by constructor.
Qed.

Lemma mapM_result_Raise {A B} (f : A → result B) (l : list A) (e : exn) :
  mapM f l = Raise e → ∃ a, a ∈ l ∧ f a = Raise e.
Proof.
  induction l as [|a l IH]; simpl; [done |].
  unfold mbind, result_bind at 1. destruct (f a) as [b|e'] eqn:Hfa; simpl.
  - unfold mbind, result_bind at 1. destruct (mapM f l) as [k|e'']; [done |].
    intros [= ->]. destruct IH as (a' & ? & ?); [done |].
    exists a'. split; [by right | done].
  - intros [= ->]. exists a. split; [by left | done].
Qed.

(** ** Indexing and row access *)

Lemma getitem_lt {A} (l : list A) (i : nat) :
  i < length l → ∃ a, getitem l i = Ok a ∧ l !! i = Some a.
Proof.
  intros Hi. destruct (lookup_lt_is_Some_2 l i Hi) as [a Ha].
  exists a. unfold getitem. by rewrite Ha.
Qed.

Lemma getitem_ge {A} (l : list A) (i : nat) :
  length l ≤ i → getitem l i = Raise IndexError.
Proof. intros Hi. unfold getitem. by rewrite lookup_ge_None_2. Qed.

Lemma loc_elem_of {Cell} (cols : list string) (row : list Cell) (col : string) :
  col ∈ cols → length row = length cols →
  ∃ v, DataFrame.loc cols row col = Ok v.
Proof.
  revert row. induction cols as [|c cols IH]; intros row Hin Hlen.
  - by apply elem_of_nil in Hin.
  - destruct row as [|v row]; [done |]. simpl.
    destruct (decide (c = col)) as [->|Hne]; [by eexists |].
    apply IH; [|by simplify_eq/=].
    apply elem_of_cons in Hin as [->|]; done.
Qed.

Lemma loc_raises_KeyError {Cell} (cols : list string) (row : list Cell)
    (col : string) (e : exn) :
  DataFrame.loc cols row col = Raise e → e = KeyError col.
Proof.
  revert row. induction cols as [|c cols IH]; intros [|v row]; simpl;
    try by intros [= <-].
  destruct (decide (c = col)); [done | apply IH].
Qed.

Lemma next_filter_elem_of {A} (P : A → bool) (l : list A) (default : A) :
  default ∈ l → next (filter P l) default ∈ l.
Proof.
  intros Hd. destruct (filter P l) as [|a k] eqn:Hf; simpl; [done |].
  assert (a ∈ filter P l) as Ha by (rewrite Hf; left).
  by apply list_elem_of_filter in Ha as [_ ?].
Qed.

(** The program's [next(generator, default)] picks the column the claim
    describes, once the default exists. *)
Lemma next_filter_claimed (P : string → bool) (keywords : list string)
    (fallback : nat) (cols : list string) (default : string) :
  (∀ c, P c = existsb (λ k, contains k (lower c)) keywords) →
  cols !! fallback = Some default →
  claimed_column keywords fallback cols = Some (next (filter P cols) default).
Proof.
  intros HP Hd. unfold claimed_column.
  assert (∀ l : list string,
    match list_find (λ c, existsb (λ k, contains k (lower c)) keywords) l with
    | Some (_, c) => Some c
    | None => Some default
    end = Some (next (filter P l) default)) as Hgen.
  { induction l as [|c l IH]; [done |].
    rewrite filter_cons. simpl. rewrite HP.
    destruct (existsb _ keywords) eqn:Hc.
    - rewrite decide_True by done. by rewrite decide_True by done.
    - rewrite decide_False by (by intros ?%Is_true_true_1).
      rewrite decide_False by (by intros ?%Is_true_true_1). simpl.
      destruct (list_find _ l) as [[? ?]|]; simpl in *; done. }
  specialize (Hgen cols).
  destruct (list_find _ cols) as [[? ?]|]; [done | by rewrite Hd].
Qed.

(** ** The loaders *)

Ltac unfold_result :=
  unfold mbind, result_bind, mret, result_ret, fmap, result_fmap; simpl.

Section LoaderProperties.
Context {Cell Json : Type}.
Variable json_loads : string → result Json.
Variable read_csv : string → result (DataFrame.t Cell).

(** The CSV branch of [load_stdin] is [load_csv_file] on the same text. *)
Lemma load_stdin_csv_branch (content : string) :
  json_loads content = Raise JSONDecodeError →
  load_stdin json_loads read_csv content
  = FromCsv <$> load_csv_file read_csv content.
Proof.
  intros Hjson. unfold load_stdin, load_csv_file. rewrite Hjson.
  destruct (read_csv content) as [df|]; unfold_result; [|done].
  destruct (getitem (DataFrame.columns df) 0); unfold_result; [|done].
  destruct (getitem (DataFrame.columns df) 1); unfold_result; [|done].
  destruct (getitem (DataFrame.columns df) 2); unfold_result; [|done].
  by destruct (mapM _ (DataFrame.rows df)).
Qed.

(** With three columns or more, [load_csv_file] returns, and what it
    returns is fixed by the three chosen columns. *)
Lemma load_csv_file_Ok (filepath : string) (df : DataFrame.t Cell) :
  read_csv filepath = Ok df →
  DataFrame.rectangular df = true →
  3 ≤ length (DataFrame.columns df) →
  let cols := DataFrame.columns df in
  ∃ c0 c1 c2 pts,
    cols !! 0 = Some c0 ∧ cols !! 1 = Some c1 ∧ cols !! 2 = Some c2 ∧
    let label_col := next (filter is_label_col cols) c0 in
    let x_col := next (filter is_x_col cols) c1 in
    let y_col := next (filter is_y_col cols) c2 in
    load_csv_file read_csv filepath
    = Ok (Data pts (Some x_col) (Some y_col) (Some "Scatter Plot")) ∧
    Forall2 (λ row p,
               DataFrame.loc cols row label_col = Ok (p_label p) ∧
               DataFrame.loc cols row x_col = Ok (p_x p) ∧
               DataFrame.loc cols row y_col = Ok (p_y p))
            (DataFrame.rows df) pts.
Proof.
  intros Hread Hrect Hlen cols.
  destruct (getitem_lt cols 0) as (c0 & Hg0 & H0); [unfold cols; lia |].
  destruct (getitem_lt cols 1) as (c1 & Hg1 & H1); [unfold cols; lia |].
  destruct (getitem_lt cols 2) as (c2 & Hg2 & H2); [unfold cols; lia |].
  exists c0, c1, c2.
  set (label_col := next (filter is_label_col cols) c0).
  set (x_col := next (filter is_x_col cols) c1).
  set (y_col := next (filter is_y_col cols) c2).
  assert (label_col ∈ cols) as Hl
    by (apply next_filter_elem_of; by eapply list_elem_of_lookup_2).
  assert (x_col ∈ cols) as Hx
    by (apply next_filter_elem_of; by eapply list_elem_of_lookup_2).
  assert (y_col ∈ cols) as Hy
    by (apply next_filter_elem_of; by eapply list_elem_of_lookup_2).
  destruct (mapM_result_Ok (row_point cols label_col x_col y_col)
              (DataFrame.rows df)) as (pts & Hpts & Hall).
  { unfold DataFrame.rectangular in Hrect.
    rewrite forallb_forall in Hrect. apply Forall_forall.
    intros row Hrow. apply list_elem_of_In, Hrect in Hrow.
    apply Nat.eqb_eq in Hrow.
    destruct (loc_elem_of cols row label_col Hl Hrow) as [l El].
    destruct (loc_elem_of cols row x_col Hx Hrow) as [x Ex].
    destruct (loc_elem_of cols row y_col Hy Hrow) as [y Ey].
    exists (Point l x y). unfold row_point. rewrite El, Ex, Ey. done. }
  exists pts. repeat split; try done.
  - unfold load_csv_file. rewrite Hread. unfold_result.
    fold cols. rewrite Hg0. unfold_result. rewrite Hg1. unfold_result.
    rewrite Hg2. unfold_result.
    fold label_col x_col y_col.
    unfold mbind, result_bind, mret, result_ret in Hpts. by rewrite Hpts.
  - eapply Forall2_impl; [exact Hall |]. intros row p. unfold row_point.
    destruct (DataFrame.loc cols row label_col); unfold_result; [|done].
    destruct (DataFrame.loc cols row x_col); unfold_result; [|done].
    destruct (DataFrame.loc cols row y_col); unfold_result; [|done].
    by intros [= <-].
Qed.

(** With fewer than three columns one of the three defaults does not
    exist, and evaluating it raises before any column is searched. *)
Lemma load_csv_file_IndexError (filepath : string) (df : DataFrame.t Cell) :
  read_csv filepath = Ok df →
  length (DataFrame.columns df) < 3 →
  load_csv_file read_csv filepath = Raise IndexError.
Proof.
  intros Hread Hlen. unfold load_csv_file. rewrite Hread. unfold_result.
  destruct (DataFrame.columns df) as [|c0 [|c1 [|c2 cols]]];
    simpl in *; try done. lia.
Qed.

Lemma row_point_raises_KeyError (cols : list string)
    (label_col x_col y_col : string) (row : list Cell) (e : exn) :
  row_point cols label_col x_col y_col row = Raise e → ∃ k, e = KeyError k.
Proof.
  unfold row_point.
  destruct (DataFrame.loc cols row label_col) eqn:E1; unfold_result;
    [|intros [= <-]; eauto using loc_raises_KeyError].
  destruct (DataFrame.loc cols row x_col) eqn:E2; unfold_result;
    [|intros [= <-]; eauto using loc_raises_KeyError].
  destruct (DataFrame.loc cols row y_col) eqn:E3; unfold_result;
    [done |intros [= <-]; eauto using loc_raises_KeyError].
Qed.

Lemma load_csv_file_no_IndexError (filepath : string) (df : DataFrame.t Cell) :
  read_csv filepath = Ok df →
  3 ≤ length (DataFrame.columns df) →
  load_csv_file read_csv filepath ≠ Raise IndexError.
Proof.
  intros Hread Hlen. unfold load_csv_file. rewrite Hread. unfold_result.
  destruct (DataFrame.columns df) as [|c0 [|c1 [|c2 cols]]] eqn:Hcols;
    simpl in *; try lia.
  unfold getitem. simpl. unfold_result.
  destruct (mapM _ (DataFrame.rows df)) as [pts|e] eqn:Hm; [done |].
  intros [= ->]. apply mapM_result_Raise in Hm as (row & _ & Hrow).
  by apply row_point_raises_KeyError in Hrow as [k ?].
Qed.
End LoaderProperties.

Lemma is_label_col_keywords (c : string) :
  is_label_col c = existsb (λ k, contains k (lower c)) ["label"; "name"].
Proof. unfold is_label_col. simpl. by rewrite orb_false_r. Qed.

Lemma is_x_col_keywords (c : string) :
  is_x_col c = existsb (λ k, contains k (lower c)) ["x"; "speed"; "time"].
Proof. unfold is_x_col. simpl. by rewrite orb_false_r, orb_assoc. Qed.

Lemma is_y_col_keywords (c : string) :
  is_y_col c = existsb (λ k, contains k (lower c)) ["y"; "quality"; "tier"].
Proof. unfold is_y_col. simpl. by rewrite orb_false_r, orb_assoc. Qed.

(** C2: for a CSV table with at least three columns, [load_csv_file] and the
    CSV branch of [load_stdin] take as label, x and y column the first
    column whose lowercase name contains "label" or "name" (else column 0),
    "x", "speed" or "time" (else column 1), "y", "quality" or "tier" (else
    column 2), and return one point per data row, made of the row's cells
    under these three columns, with xlabel and ylabel set to the names of the
    x and y columns. *)
Theorem load_csv_column_heuristics {Cell Json : Type}
    (json_loads : string → result Json)
    (read_csv : string → result (DataFrame.t Cell))
    (source : string) (df : DataFrame.t Cell) :
  read_csv source = Ok df →
  DataFrame.rectangular df = true →
  3 ≤ length (DataFrame.columns df) →
  let cols := DataFrame.columns df in
  ∃ label_col x_col y_col pts,
    claimed_column ["label"; "name"] 0 cols = Some label_col ∧
    claimed_column ["x"; "speed"; "time"] 1 cols = Some x_col ∧
    claimed_column ["y"; "quality"; "tier"] 2 cols = Some y_col ∧
    load_csv_file read_csv source
    = Ok (Data pts (Some x_col) (Some y_col) (Some "Scatter Plot")) ∧
    (json_loads source = Raise JSONDecodeError →
     load_stdin json_loads read_csv source
     = Ok (FromCsv (Data pts (Some x_col) (Some y_col) (Some "Scatter Plot")))) ∧
    length pts = length (DataFrame.rows df) ∧
    Forall2 (λ row p,
               DataFrame.loc cols row label_col = Ok (p_label p) ∧
               DataFrame.loc cols row x_col = Ok (p_x p) ∧
               DataFrame.loc cols row y_col = Ok (p_y p))
            (DataFrame.rows df) pts.
Proof.
  intros Hread Hrect Hlen cols.
  destruct (load_csv_file_Ok read_csv source df Hread Hrect Hlen)
    as (c0 & c1 & c2 & pts & H0 & H1 & H2 & Hload & Hpts).
  eexists _, _, _, pts. split_and!.
  - by apply next_filter_claimed; [apply is_label_col_keywords |].
  - by apply next_filter_claimed; [apply is_x_col_keywords |].
  - by apply next_filter_claimed; [apply is_y_col_keywords |].
  - exact Hload.
  - intros Hjson. rewrite (load_stdin_csv_branch _ _ _ Hjson).
    fold cols. by rewrite Hload.
  - symmetry. by eapply Forall2_length.
  - exact Hpts.
Qed.

Lemma load_csv_column_heuristics_witness :
  load_csv_file sample_read_csv models_csv
  = Ok (Data [Point (Str "fast-model") (Int 556) (Int 5);
              Point (Str "slow-model") (Int 1200) (Int 3)]
          (Some "speed_ms") (Some "quality_tier") (Some "Scatter Plot")) ∧
  load_stdin sample_json_loads sample_read_csv models_csv
  = Ok (FromCsv (Data [Point (Str "fast-model") (Int 556) (Int 5);
                       Point (Str "slow-model") (Int 1200) (Int 3)]
                   (Some "speed_ms") (Some "quality_tier")
                   (Some "Scatter Plot"))).
Proof.
  destruct (load_csv_column_heuristics sample_json_loads sample_read_csv
              models_csv models_df eq_refl eq_refl)
    as (l & x & y & pts & Hl & Hx & Hy & Hload & Hstdin & _ & _).
  { simpl. lia. }
  specialize (Hstdin eq_refl).
  vm_compute in Hl, Hx, Hy. simplify_eq/=.
  assert (pts = [Point (Str "fast-model") (Int 556) (Int 5);
                 Point (Str "slow-model") (Int 1200) (Int 3)]) as ->
    by (vm_compute in Hload; by simplify_eq/=).
  by split.
Defined.

(** C9: when the table has fewer than three columns, [load_csv_file] and
    the CSV branch of [load_stdin] raise IndexError, whatever the column
    names are, because the positional defaults are evaluated before [next]
    is called; with three or more columns the three index accesses succeed
    and no IndexError is raised. *)
Theorem few_columns_raise_IndexError {Cell Json : Type}
    (json_loads : string → result Json)
    (read_csv : string → result (DataFrame.t Cell))
    (source : string) (df : DataFrame.t Cell) :
  read_csv source = Ok df →
  let cols := DataFrame.columns df in
  (length cols < 3 →
     load_csv_file read_csv source = Raise IndexError ∧
     (json_loads source = Raise JSONDecodeError →
      load_stdin json_loads read_csv source = Raise IndexError)) ∧
  (3 ≤ length cols →
     (∃ c0 c1 c2,
        getitem cols 0 = Ok c0 ∧ getitem cols 1 = Ok c1 ∧
        getitem cols 2 = Ok c2) ∧
     load_csv_file read_csv source ≠ Raise IndexError ∧
     (json_loads source = Raise JSONDecodeError →
      load_stdin json_loads read_csv source ≠ Raise IndexError)).
Proof.
  intros Hread cols. split; intros Hlen.
  - assert (load_csv_file read_csv source = Raise IndexError) as Hload
      by by eapply load_csv_file_IndexError.
    split; [done |]. intros Hjson.
    by rewrite (load_stdin_csv_branch _ _ _ Hjson), Hload.
  - assert (load_csv_file read_csv source ≠ Raise IndexError) as Hload
      by by eapply load_csv_file_no_IndexError.
    split_and!; [|done |].
    + destruct (getitem_lt cols 0) as (c0 & ? & _); [lia |].
      destruct (getitem_lt cols 1) as (c1 & ? & _); [lia |].
      destruct (getitem_lt cols 2) as (c2 & ? & _); [lia |].
      by exists c0, c1, c2.
    + intros Hjson. rewrite (load_stdin_csv_branch _ _ _ Hjson).
      destruct (load_csv_file read_csv source) as [d|e]; [done |].
      unfold_result. intros [= ->]. done.
Qed.

Lemma few_columns_raise_IndexError_witness :
  (is_label_col "label" = true ∧ is_x_col "xy" = true ∧ is_y_col "xy" = true ∧
   load_csv_file sample_read_csv two_columns_csv = Raise IndexError ∧
   load_stdin sample_json_loads sample_read_csv two_columns_csv
   = Raise IndexError) ∧
  (load_csv_file sample_read_csv models_csv ≠ Raise IndexError ∧
   load_stdin sample_json_loads sample_read_csv models_csv ≠ Raise IndexError).
Proof.
  split.
  - destruct (few_columns_raise_IndexError sample_json_loads sample_read_csv
                two_columns_csv two_columns_df eq_refl) as [Hfew _].
    destruct Hfew as [Hfile Hstdin]; [simpl; lia |].
    specialize (Hstdin eq_refl). by split_and!.
  - destruct (few_columns_raise_IndexError sample_json_loads sample_read_csv
                models_csv models_df eq_refl) as [_ Hmany].
    destruct Hmany as (_ & Hfile & Hstdin); [simpl; lia |].
    specialize (Hstdin eq_refl). by split.
Defined.

(** C3, as the program has it: [load_stdin] returns the parsed document
    exactly when the text parses as JSON; it goes to the CSV branch exactly
    when [json.loads] raises JSONDecodeError (any other exception is passed
    on); and when the CSV text is read as a table with at least three columns
    the branch returns a dict whose 'points' has one entry per data row and
    whose 'title' is "Scatter Plot". *)
Theorem load_stdin_json_then_csv {Cell Json : Type}
    (json_loads : string → result Json)
    (read_csv : string → result (DataFrame.t Cell))
    (content : string) :
  (∀ doc, load_stdin json_loads read_csv content = Ok (FromJson doc)
          ↔ json_loads content = Ok doc) ∧
  (∀ d, load_stdin json_loads read_csv content = Ok (FromCsv d) →
        json_loads content = Raise JSONDecodeError) ∧
  (json_loads content = Raise JSONDecodeError →
   load_stdin json_loads read_csv content
   = FromCsv <$> load_csv_file read_csv content) ∧
  (∀ e, json_loads content = Raise e → e ≠ JSONDecodeError →
        load_stdin json_loads read_csv content = Raise e) ∧
  (∀ df, json_loads content = Raise JSONDecodeError →
         read_csv content = Ok df →
         DataFrame.rectangular df = true →
         3 ≤ length (DataFrame.columns df) →
         ∃ d, load_stdin json_loads read_csv content = Ok (FromCsv d) ∧
              length (points d) = length (DataFrame.rows df) ∧
              title d = Some "Scatter Plot").
Proof.
  split_and!.
  - intros doc. split.
    + unfold load_stdin. destruct (json_loads content) as [doc'|e].
      * by intros [= ->].
      * destruct e; try done.
        destruct (read_csv content) as [df|]; unfold_result; [|done].
        destruct (getitem _ 0); unfold_result; [|done].
        destruct (getitem _ 1); unfold_result; [|done].
        destruct (getitem _ 2); unfold_result; [|done].
        by destruct (mapM _ _).
    + intros Hdoc. unfold load_stdin. by rewrite Hdoc.
  - intros d. unfold load_stdin. destruct (json_loads content) as [doc'|e].
    + done.
    + by destruct e.
  - apply load_stdin_csv_branch.
  - intros e He Hne. unfold load_stdin. rewrite He. by destruct e.
  - intros df Hjson Hread Hrect Hlen.
    destruct (load_csv_file_Ok read_csv content df Hread Hrect Hlen)
      as (c0 & c1 & c2 & pts & _ & _ & _ & Hload & Hpts).
    eexists. rewrite (load_stdin_csv_branch _ _ _ Hjson), Hload.
    split_and!; [done | | done]. simpl. symmetry. by eapply Forall2_length.
Qed.

Lemma load_stdin_json_then_csv_witness :
  load_stdin sample_json_loads sample_read_csv "[]" = Ok (FromJson EmptyList) ∧
  ∃ d, load_stdin sample_json_loads sample_read_csv models_csv
       = Ok (FromCsv d) ∧
       length (points d) = 2 ∧ title d = Some "Scatter Plot".
Proof.
  split.
  - destruct (load_stdin_json_then_csv sample_json_loads sample_read_csv "[]")
      as (Hjson & _).
    by apply Hjson.
  - destruct (load_stdin_json_then_csv sample_json_loads sample_read_csv
                models_csv) as (_ & _ & _ & _ & Hcsv).
    apply (Hcsv models_df eq_refl eq_refl eq_refl). simpl. lia.
Defined.

(** C3 as stated fails: the text [label,xy] is not JSON and is read as a
    table of two columns; the CSV branch raises IndexError and returns no
    dict. *)
Lemma load_stdin_two_columns_no_dict :
  sample_json_loads two_columns_csv = Raise JSONDecodeError ∧
  sample_read_csv two_columns_csv = Ok two_columns_df ∧
  load_stdin sample_json_loads sample_read_csv two_columns_csv
  = Raise IndexError ∧
  ¬ ∃ d, load_stdin sample_json_loads sample_read_csv two_columns_csv = Ok d.
Proof. split_and!; try done. by intros [d ?]. Qed.

(** ** The plot *)

Section PlotProperties.
Context {L N : Type} `{EqDecision N}.
Variable leb : N → N → bool.
Variable to_int : N → Z.
Variable of_int : Z → N.
Variable str : N → string.

Lemma index_first_position (y : N) (ys : list N) :
  y ∈ ys → index y ys = Ok (first_position y ys).
Proof.
  unfold index. induction ys as [|v ys IH]; intros Hin.
  - by apply elem_of_nil in Hin.
  - simpl. destruct (decide (v = y)) as [->|Hne]; [done |].
    apply elem_of_cons in Hin as [->|Hin]; [done |].
    specialize (IH Hin). destruct (list_find _ ys) as [[i v']|]; [|done].
    simpl. by simplify_eq/=.
Qed.

Lemma first_position_lookup (y : N) (ys : list N) :
  y ∈ ys →
  ys !! first_position y ys = Some y ∧
  ∀ j, j < first_position y ys → ys !! j ≠ Some y.
Proof.
  induction ys as [|v ys IH]; intros Hin.
  - by apply elem_of_nil in Hin.
  - simpl. destruct (decide (v = y)) as [->|Hne].
    + split; [done | intros j; lia].
    + apply elem_of_cons in Hin as [->|Hin]; [done |].
      destruct (IH Hin) as [Hat Hbefore]. split; [done |].
      intros [|j] Hj; simpl; [congruence | apply Hbefore; lia].
Qed.

Lemma distinct_count_remove_dups (ys : list N) :
  length (remove_dups ys) = distinct_count ys.
Proof.
  induction ys as [|v ys IH]; [done |]. simpl.
  unfold decide_rel.
  destruct (decide (v ∈ ys)), (list_elem_of_dec v ys); simpl;
    try done; by rewrite IH.
Qed.

Lemma length_unique_y (ys : list N) :
  length (sorted leb (set_ ys)) = distinct_count ys.
Proof.
  unfold sorted, set_. rewrite <- distinct_count_remove_dups.
  apply Permutation_length, merge_sort_Permutation.
Qed.

Lemma distinct_count_pos (y : N) (ys : list N) :
  y ∈ ys → 0 < distinct_count ys.
Proof.
  revert y. induction ys as [|v ys IH]; intros y Hin.
  - by apply elem_of_nil in Hin.
  - simpl. destruct (decide (v ∈ ys)); [by eapply IH | lia].
Qed.

Lemma distinct_count_le (ys : list N) : distinct_count ys ≤ length ys.
Proof.
  induction ys as [|v ys IH]; simpl; [done |].
  destruct (decide (v ∈ ys)); lia.
Qed.

(** No division by zero: a fraction is computed only for a y-value of the
    input, and then there is at least one distinct y-value. *)
Lemma fractions_Ok (ys l : list N) :
  l ⊆ ys →
  mapM (λ y, i ← index y ys; truediv i (distinct_count ys)) l
  = Ok ((λ y, Z.of_nat (first_position y ys)
              # Pos.of_nat (distinct_count ys)) <$> l).
Proof.
  induction l as [|y l IH]; intros Hsub; [done |].
  assert (y ∈ ys) as Hy by (apply Hsub; left).
  simpl. rewrite (index_first_position y ys Hy). unfold_result.
  pose proof (distinct_count_pos y ys Hy) as Hpos.
  unfold truediv at 1. destruct (distinct_count ys) as [|n] eqn:Hn; [lia |].
  unfold mbind, result_bind, mret, result_ret in IH. rewrite IH; [done |].
  intros z Hz. apply Hsub. by right.
Qed.

Lemma zip3_points (ps : list (point L N)) :
  zip3 (p_x <$> ps) (p_y <$> ps) (p_label <$> ps)
  = (λ p, (p_x p, p_y p, p_label p)) <$> ps.
Proof. induction ps as [|p ps IH]; simpl; [done | f_equal; exact IH]. Qed.

Lemma plt_map_texts (ps : list (point L N)) (w : pyplot) :
  plt_map (λ '(x, y, label),
             text (MkText x y label 8 "center" "center"
                     (BBoxProps "round,pad=0.3" "white" "none" 0.7)))
          ((λ p, (p_x p, p_y p, p_label p)) <$> ps) w
  = Ok (label_text <$> ps, w, ax_text <$> (label_text <$> ps)).
Proof.
  induction ps as [|p ps IH]; [done |].
  rewrite fmap_cons. cbn [plt_map]. unfold plt_bind at 1.
  cbn [text emit plt_bind plt_ret app]. unfold plt_bind at 1.
  rewrite IH. unfold plt_ret. cbn. by rewrite app_nil_r.
Qed.

(** The whole run, call by call. *)
Lemma create_scatter_plot_run (d : data L N) (figsize : Q * Q)
    (style : string) (w : pyplot) :
  let ys := p_y <$> points d in
  let texts := label_text <$> points d in
  let restyled := bool_decide (style ≠ "default") in
  let rc := if restyled then style :: rc_styles w else rc_styles w in
  let tiers := (distinct_count ys <=? 10)%nat in
  let colors :=
    if tiers then Viridis (claimed_fractions ys)
    else ColorName "steelblue" in
  create_scatter_plot leb to_int of_int str d figsize style w
  = Ok (MkFigure (S (fignums w)) figsize rc,
        PyPlot rc (S (fignums w)),
        (if restyled then [plt_style_use style] else []) ++
        [plt_subplots figsize;
         ax_scatter (p_x <$> points d) ys
           (ScatterKwargs 100 colors 0.6 "white" 1.5 2)] ++
        (ax_text <$> texts) ++
        [adjust_text texts layout_kwargs;
         ax_set_xlabel (get (xlabel d) "X") 12 "bold";
         ax_set_ylabel (get (ylabel d) "Y") 12 "bold";
         ax_set_title (get (title d) "Scatter Plot") 14 "bold" 20;
         ax_grid true 0.3 "--" 0.5 1;
         ax_set_axisbelow true] ++
        (if tiers then
           [ax_set_yticks (sorted leb (set_ ys));
            ax_set_yticklabels
              (tick_label to_int of_int str <$> sorted leb (set_ ys))]
         else []) ++
        [plt_tight_layout]).
Proof.
  intros ys texts restyled rc tiers colors.
  unfold create_scatter_plot. fold ys. rewrite zip3_points.
  rewrite length_unique_y. fold tiers.
  unfold plt_bind at 1.
  assert ((if decide (style ≠ "default") then style_use style else plt_ret ()) w
          = Ok ((), PyPlot rc (fignums w),
                if restyled then [plt_style_use style] else [])) as ->.
  { unfold rc, restyled. destruct (decide (style ≠ "default")).
    - by rewrite bool_decide_true.
    - rewrite bool_decide_false by done. by destruct w. }
  unfold plt_bind at 1. simpl.
  unfold plt_bind at 1.
  assert ((if tiers
           then plt_bind
                  (lift (mapM (λ y, i ← index y ys;
                                    truediv i (distinct_count ys)) ys))
                  (λ fracs, plt_ret (Viridis fracs))
           else plt_ret (ColorName "steelblue"))
            (PyPlot rc (S (fignums w)))
          = Ok (colors, PyPlot rc (S (fignums w)), [])) as ->.
  { unfold colors. destruct tiers; [|done].
    unfold plt_bind, lift. by rewrite fractions_Ok. }
  unfold plt_bind at 1. simpl.
  unfold plt_bind at 1. rewrite plt_map_texts.
  unfold plt_bind, emit, plt_ret. simpl.
  destruct tiers; simpl; by rewrite ?app_nil_r.
Qed.

Lemma scatter_calls_texts (ts : list (@Text L N)) :
  scatter_calls (ax_text <$> ts) = [].
Proof. induction ts as [|t ts IH]; [done | exact IH]. Qed.

Lemma texts_created_texts (ts : list (@Text L N)) :
  texts_created (ax_text <$> ts) = ts.
Proof.
  induction ts as [|t ts IH]; [done |].
  unfold texts_created in *. rewrite fmap_cons. cbn [omap list_omap].
  by rewrite IH.
Qed.

Lemma adjust_calls_texts (ts : list (@Text L N)) :
  adjust_calls (ax_text <$> ts) = [].
Proof. induction ts as [|t ts IH]; [done | exact IH]. Qed.

Lemma scatter_calls_app (cs1 cs2 : list (@call L N)) :
  scatter_calls (cs1 ++ cs2) = scatter_calls cs1 ++ scatter_calls cs2.
Proof. apply omap_app. Qed.

Lemma texts_created_app (cs1 cs2 : list (@call L N)) :
  texts_created (cs1 ++ cs2) = texts_created cs1 ++ texts_created cs2.
Proof. apply omap_app. Qed.

Lemma adjust_calls_app (cs1 cs2 : list (@call L N)) :
  adjust_calls (cs1 ++ cs2) = adjust_calls cs1 ++ adjust_calls cs2.
Proof. apply omap_app. Qed.

(** What a run plots, labels and asks of the layout step. *)
Lemma create_scatter_plot_calls (d : data L N) (figsize : Q * Q)
    (style : string) (w : pyplot) :
  let ys := p_y <$> points d in
  let colors :=
    if (distinct_count ys <=? 10)%nat then Viridis (claimed_fractions ys)
    else ColorName "steelblue" in
  ∃ fig w' cs,
    create_scatter_plot leb to_int of_int str d figsize style w
    = Ok (fig, w', cs) ∧
    scatter_calls cs
    = [(p_x <$> points d, ys, ScatterKwargs 100 colors 0.6 "white" 1.5 2)] ∧
    texts_created cs = label_text <$> points d ∧
    adjust_calls cs = [(label_text <$> points d, layout_kwargs)].
Proof.
  intros ys colors. eexists _, _, _.
  split; [apply create_scatter_plot_run |].
  fold ys. fold colors.
  rewrite !scatter_calls_app, !texts_created_app, !adjust_calls_app.
  rewrite scatter_calls_texts, texts_created_texts, adjust_calls_texts.
  destruct (bool_decide (style ≠ "default")),
    (distinct_count ys <=? 10)%nat; simpl; by rewrite ?app_nil_r.
Qed.
End PlotProperties.

(** ** The layout solver *)

Module SolverFacts.
Import Solver.

Lemma length_round (t : tuning) (cfg : Config) (anchors : list AnchorPoint)
    (bs : list LabelBox) :
  length (zip_with displace bs
            ((λ b, step t (net_force t cfg anchors bs b)) <$> bs))
  = length bs.
Proof. rewrite length_zip_with, length_fmap. lia. Qed.

(** Every round keeps the boxes and their anchors; the rounds run stay
    within the fuel, and a run that did not converge used all of it. *)
Lemma relax_spec (t : tuning) (cfg : Config) (anchors : list AnchorPoint)
    (fuel : nat) (bs : list LabelBox) :
  let '(final, n, conv) := relax t cfg anchors fuel bs in
  length final = length bs ∧ n ≤ fuel ∧ (conv = true ∨ n = fuel).
Proof.
  revert bs. induction fuel as [|fuel IH]; intros bs; simpl.
  - split_and!; [done | lia | by right].
  - destruct (Qltb _ _).
    + split_and!; [apply length_round | lia | by left].
    + specialize (IH (zip_with displace bs
                        ((λ b, step t (net_force t cfg anchors bs b)) <$> bs))).
      destruct (relax t cfg anchors fuel _) as [[final n] conv].
      destruct IH as (Hlen & Hn & Hconv).
      split_and!; [by rewrite Hlen, length_round | lia |].
      destruct Hconv as [->| ->]; [by left | by right].
Qed.

Lemma solve_spec (t : tuning) (cfg : Config)
    (input : list (AnchorPoint * (Q * Q))) :
  length (boxes (solve t cfg input)) = length input ∧
  rounds (solve t cfg input) ≤ max_iterations cfg ∧
  (converged (solve t cfg input) = true ∨
   rounds (solve t cfg input) = max_iterations cfg).
Proof.
  unfold solve.
  pose proof (relax_spec t cfg (fst <$> input) (max_iterations cfg)
                (init_box t <$> input)) as Hspec.
  destruct (relax t cfg _ _ _) as [[final n] conv]. simpl.
  rewrite length_fmap in Hspec. exact Hspec.
Qed.

(** With no iteration allowed the boxes are the initial ones. *)
Lemma solve_no_budget (t : tuning) (cfg : Config)
    (input : list (AnchorPoint * (Q * Q))) :
  max_iterations cfg = 0 →
  boxes (solve t cfg input) = init_box t <$> input ∧
  rounds (solve t cfg input) = 0.
Proof. intros Hzero. unfold solve. rewrite Hzero. by simpl. Qed.
End SolverFacts.

Section LayoutProperties.
Context {L N : Type}.
Variable to_canvas : N → N → Q * Q.
Variable extent : L → Q * Q.

Lemma length_anchors_of (texts : list (@Text L N)) :
  length (anchors_of to_canvas extent texts) = length texts.
Proof. apply length_imap. Qed.

(** The initial box of every text is centred on the text's position. *)
Lemma init_boxes_centred (t : Solver.tuning) (texts : list (@Text L N)) :
  Forall2 (λ tx b,
             (Solver.bx b, Solver.by_ b)
             = to_canvas (text_x tx) (text_y tx))
          texts (Solver.init_box t <$> anchors_of to_canvas extent texts).
Proof.
  unfold anchors_of.
  change (Forall2 (λ tx b,
                     (Solver.bx b, Solver.by_ b)
                     = to_canvas (text_x tx) (text_y tx))
            texts
            (Solver.init_box t <$>
             imap (λ i tx,
                     (Solver.MkAnchor ((λ i : nat, i) i)
                        (to_canvas (text_x tx) (text_y tx)).1
                        (to_canvas (text_x tx) (text_y tx)).2,
                      extent (text_s tx))) texts)).
  generalize (λ i : nat, i).
  induction texts as [|tx texts IH]; intros g; [constructor |].
  cbn [imap fmap list_fmap]. constructor.
  - unfold Solver.init_box. simpl. by destruct (to_canvas _ _).
  - apply (IH (g ∘ S)).
Qed.
End LayoutProperties.

Lemma Zpos_of_nat (n : nat) : 0 < n → Z.pos (Pos.of_nat n) = Z.of_nat n.
Proof.
  destruct n as [|n]; [lia |]. intros _.
  by rewrite <- Pos.of_nat_succ, Znat.Zpos_P_of_succ_nat, Nat2Z.inj_succ.
Qed.

(** ** The claims about the plot *)

(** C1: the layout step ends within the configured number of iterations and
    always yields a layout, one box per label, also when the budget is
    used up without convergence; for the call [create_scatter_plot] makes
    the budget is 500. *)
Theorem layout_within_iteration_budget {L N : Type} `{EqDecision N}
    (leb : N → N → bool) (to_int : N → Z) (of_int : Z → N) (str : N → string)
    (to_canvas : N → N → Q * Q) (extent : L → Q * Q) (t : Solver.tuning) :
  (∀ cfg input,
     let r := Solver.solve t cfg input in
     length (Solver.boxes r) = length input ∧
     Solver.rounds r ≤ Solver.max_iterations cfg ∧
     (Solver.converged r = true ∨
      Solver.rounds r = Solver.max_iterations cfg)) ∧
  (∀ (d : data L N) figsize style w,
     ∃ fig w' cs texts kw,
       create_scatter_plot leb to_int of_int str d figsize style w
       = Ok (fig, w', cs) ∧
       adjust_calls cs = [(texts, kw)] ∧
       lim kw = 500 ∧
       let r := layout to_canvas extent t texts kw in
       length (Solver.boxes r) = length (points d) ∧
       Solver.rounds r ≤ 500 ∧
       (Solver.converged r = true ∨ Solver.rounds r = 500)).
Proof.
  split.
  - intros cfg input. apply SolverFacts.solve_spec.
  - intros d figsize style w.
    destruct (create_scatter_plot_calls leb to_int of_int str d figsize style w)
      as (fig & w' & cs & Hrun & _ & _ & Hadjust).
    exists fig, w', cs, (label_text <$> points d), layout_kwargs.
    split_and!; [done | done | done |]. unfold layout.
    destruct (SolverFacts.solve_spec t (solver_config layout_kwargs)
                (anchors_of to_canvas extent (label_text <$> points d)))
      as (Hlen & Hrounds & Hconv).
    rewrite length_anchors_of, length_fmap in Hlen. by split_and!.
Qed.

(** C4: the plot creates exactly one text label per input point; the list of
    label artists, which is also the list handed to the layout step, is as
    long as the list of points. *)
Theorem one_label_per_point {L N : Type} `{EqDecision N}
    (leb : N → N → bool) (to_int : N → Z) (of_int : Z → N) (str : N → string)
    (d : data L N) (figsize : Q * Q) (style : string) (w : pyplot) :
  ∃ fig w' cs kw,
    create_scatter_plot leb to_int of_int str d figsize style w
    = Ok (fig, w', cs) ∧
    length (texts_created cs) = length (points d) ∧
    adjust_calls cs = [(texts_created cs, kw)].
Proof.
  destruct (create_scatter_plot_calls leb to_int of_int str d figsize style w)
    as (fig & w' & cs & Hrun & _ & Htexts & Hadjust).
  exists fig, w', cs, layout_kwargs.
  rewrite Htexts, length_fmap. done.
Qed.

(** C5: every label is created at its point's coordinates, centred on them
    horizontally and vertically; and a layout step with an iteration budget
    of zero leaves each label box centred on its anchor. *)
Theorem labels_start_on_anchors {L N : Type} `{EqDecision N}
    (leb : N → N → bool) (to_int : N → Z) (of_int : Z → N) (str : N → string)
    (to_canvas : N → N → Q * Q) (extent : L → Q * Q) (t : Solver.tuning)
    (d : data L N) (figsize : Q * Q) (style : string) (w : pyplot) :
  ∃ fig w' cs,
    create_scatter_plot leb to_int of_int str d figsize style w
    = Ok (fig, w', cs) ∧
    Forall2 (λ p tx,
               text_x tx = p_x p ∧ text_y tx = p_y p ∧ text_s tx = p_label p ∧
               ha tx = "center" ∧ va tx = "center")
            (points d) (texts_created cs) ∧
    ∀ kw, lim kw = 0 →
      let r := layout to_canvas extent t (texts_created cs) kw in
      Solver.rounds r = 0 ∧
      Forall2 (λ p b,
                 (Solver.bx b, Solver.by_ b) = to_canvas (p_x p) (p_y p))
              (points d) (Solver.boxes r).
Proof.
  destruct (create_scatter_plot_calls leb to_int of_int str d figsize style w)
    as (fig & w' & cs & Hrun & _ & Htexts & _).
  exists fig, w', cs. rewrite Htexts. split_and!; [done | |].
  - apply Forall2_fmap_r, Forall_Forall2_diag, Forall_forall. by intros p _.
  - intros kw Hzero r.
    destruct (SolverFacts.solve_no_budget t (solver_config kw)
                (anchors_of to_canvas extent (label_text <$> points d)) Hzero)
      as [Hboxes Hrounds].
    split; [exact Hrounds |]. unfold r, layout. rewrite Hboxes.
    pose proof (init_boxes_centred to_canvas extent t
                  (label_text <$> points d)) as Hcentred.
    by apply Forall2_fmap_l in Hcentred.
Qed.

Lemma labels_start_on_anchors_witness :
  ∃ fig w' cs,
    create_scatter_plot Z.leb id id pretty tiers_data (12, 8)%Q "default" fresh
    = Ok (fig, w', cs) ∧
    let r := layout sample_canvas sample_extent sample_tuning
               (texts_created cs) no_iterations in
    Solver.rounds r = 0 ∧
    Forall2 (λ p b, (Solver.bx b, Solver.by_ b)
                    = sample_canvas (p_x p) (p_y p))
            (points tiers_data) (Solver.boxes r).
Proof.
  destruct (labels_start_on_anchors Z.leb id id pretty sample_canvas
              sample_extent sample_tuning tiers_data (12, 8)%Q "default" fresh)
    as (fig & w' & cs & Hrun & _ & Hzero).
  exists fig, w', cs. split; [exact Hrun |]. by apply Hzero.
Defined.

(** C6: with an empty 'points' list the plot is made without raising: the
    scatter call gets no coordinates, no label is created and the layout
    step gets no text.  The tier branch is taken (zero distinct y-values is
    at most 10) with a divisor of zero, and no division takes place because
    the list of fractions is built from the empty list of y-values. *)
Theorem empty_points_plot {L N : Type} `{EqDecision N}
    (leb : N → N → bool) (to_int : N → Z) (of_int : Z → N) (str : N → string)
    (d : data L N) (figsize : Q * Q) (style : string) (w : pyplot) :
  points d = [] →
  let unique_y := sorted leb (set_ (p_y <$> points d)) in
  ∃ fig w' cs,
    create_scatter_plot leb to_int of_int str d figsize style w
    = Ok (fig, w', cs) ∧
    scatter_calls cs
    = [([], [], ScatterKwargs 100 (Viridis []) 0.6 "white" 1.5 2)] ∧
    texts_created cs = [] ∧
    adjust_calls cs = [([], layout_kwargs)] ∧
    (length unique_y <=? 10)%nat = true ∧
    (∀ i, truediv i (length unique_y) = Raise ZeroDivisionError) ∧
    mapM (λ y, i ← index y (p_y <$> points d); truediv i (length unique_y))
         (p_y <$> points d) = Ok [].
Proof.
  intros Hempty unique_y.
  destruct (create_scatter_plot_calls leb to_int of_int str d figsize style w)
    as (fig & w' & cs & Hrun & Hscatter & Htexts & Hadjust).
  exists fig, w', cs. unfold unique_y. rewrite Hempty in *.
  by split_and!.
Qed.

Lemma empty_points_plot_witness :
  ∃ fig w' cs,
    create_scatter_plot Z.leb id id pretty no_points (12, 8)%Q "default" fresh
    = Ok (fig, w', cs) ∧
    scatter_calls cs
    = [([], [], ScatterKwargs 100 (Viridis []) 0.6 "white" 1.5 2)] ∧
    texts_created cs = [] ∧
    adjust_calls cs = [([], layout_kwargs)].
Proof.
  destruct (empty_points_plot Z.leb id id pretty no_points (12, 8)%Q "default"
              fresh eq_refl)
    as (fig & w' & cs & Hrun & Hscatter & Htexts & Hadjust & _).
  by exists fig, w', cs.
Defined.

(** C7: the scatter coordinates and colours, the initial label placements
    and the configuration of the layout step are a function of the input
    data alone: two runs on the same data agree on them, whatever the state
    of pyplot each run starts in (and even across figure sizes and
    styles). *)
Theorem plot_deterministic {L N : Type} `{EqDecision N}
    (leb : N → N → bool) (to_int : N → Z) (of_int : Z → N) (str : N → string)
    (d : data L N) (figsize1 figsize2 : Q * Q) (style1 style2 : string)
    (w1 w2 : pyplot) :
  ∃ fig1 w1' cs1 fig2 w2' cs2,
    create_scatter_plot leb to_int of_int str d figsize1 style1 w1
    = Ok (fig1, w1', cs1) ∧
    create_scatter_plot leb to_int of_int str d figsize2 style2 w2
    = Ok (fig2, w2', cs2) ∧
    scatter_calls cs1 = scatter_calls cs2 ∧
    texts_created cs1 = texts_created cs2 ∧
    adjust_calls cs1 = adjust_calls cs2.
Proof.
  destruct (create_scatter_plot_calls leb to_int of_int str d figsize1 style1 w1)
    as (fig1 & w1' & cs1 & Hrun1 & Hscatter1 & Htexts1 & Hadjust1).
  destruct (create_scatter_plot_calls leb to_int of_int str d figsize2 style2 w2)
    as (fig2 & w2' & cs2 & Hrun2 & Hscatter2 & Htexts2 & Hadjust2).
  exists fig1, w1', cs1, fig2, w2', cs2.
  split_and!; [done | done | | |]; congruence.
Qed.

(** The figure itself is not the same from one run to the next: the second
    figure opened in a process has another number. *)
Lemma second_run_other_figure :
  ∃ fig1 w1 cs1 fig2 w2 cs2,
    create_scatter_plot Z.leb id id pretty tiers_data (12, 8)%Q "default" fresh
    = Ok (fig1, w1, cs1) ∧
    create_scatter_plot Z.leb id id pretty tiers_data (12, 8)%Q "default" w1
    = Ok (fig2, w2, cs2) ∧
    number fig1 = 1 ∧ number fig2 = 2.
Proof. by eexists _, _, _, _, _, _. Qed.

(** C8: every run calls the layout step once, with expand_points (1.5, 1.5),
    expand_text (1.2, 1.2), force_points (0.5, 0.5), force_text (0.5, 0.5)
    and an iteration limit of 500. *)
Theorem layout_configuration_fixed {L N : Type} `{EqDecision N}
    (leb : N → N → bool) (to_int : N → Z) (of_int : Z → N) (str : N → string)
    (d : data L N) (figsize : Q * Q) (style : string) (w : pyplot) :
  ∃ fig w' cs texts kw,
    create_scatter_plot leb to_int of_int str d figsize style w
    = Ok (fig, w', cs) ∧
    adjust_calls cs = [(texts, kw)] ∧
    expand_points kw = (1.5, 1.5)%Q ∧
    expand_text kw = (1.2, 1.2)%Q ∧
    force_points kw = (0.5, 0.5)%Q ∧
    force_text kw = (0.5, 0.5)%Q ∧
    lim kw = 500.
Proof.
  destruct (create_scatter_plot_calls leb to_int of_int str d figsize style w)
    as (fig & w' & cs & Hrun & _ & _ & Hadjust).
  by exists fig, w', cs, (label_text <$> points d), layout_kwargs.
Qed.

(** C10, as the program has it: with at most 10 distinct y-values, the
    colour fraction of a point is the index of the first point with the same
    y-value divided by the number of distinct y-values; points with equal
    y-values get the same fraction; the fraction is at least 1 exactly when
    that index is at least the number of distinct y-values, and exceeds 1
    exactly when the index is greater than it. *)
Theorem tier_color_fractions {L N : Type} `{EqDecision N}
    (leb : N → N → bool) (to_int : N → Z) (of_int : Z → N) (str : N → string)
    (d : data L N) (figsize : Q * Q) (style : string) (w : pyplot) :
  let ys := p_y <$> points d in
  let n := distinct_count ys in
  n ≤ 10 →
  ∃ fig w' cs kw fracs,
    create_scatter_plot leb to_int of_int str d figsize style w
    = Ok (fig, w', cs) ∧
    scatter_calls cs = [(p_x <$> points d, ys, kw)] ∧
    c kw = Viridis fracs ∧
    length (sorted leb (set_ ys)) = n ∧
    n = length (remove_dups ys) ∧
    (∀ i y, ys !! i = Some y →
       let k := first_position y ys in
       ys !! k = Some y ∧ (∀ j, j < k → ys !! j ≠ Some y) ∧
       fracs !! i = Some (Z.of_nat k # Pos.of_nat n) ∧
       ((1 <= Z.of_nat k # Pos.of_nat n)%Q ↔ n ≤ k) ∧
       ((1 < Z.of_nat k # Pos.of_nat n)%Q ↔ n < k)) ∧
    (∀ i j y, ys !! i = Some y → ys !! j = Some y → fracs !! i = fracs !! j).
Proof.
  intros ys n Hn.
  destruct (create_scatter_plot_calls leb to_int of_int str d figsize style w)
    as (fig & w' & cs & Hrun & Hscatter & _ & _).
  fold ys in Hscatter. fold n in Hscatter.
  apply Nat.leb_le in Hn. rewrite Hn in Hscatter.
  eexists fig, w', cs, _, (claimed_fractions ys).
  split_and!; [exact Hrun | exact Hscatter | done | apply length_unique_y
              | symmetry; apply distinct_count_remove_dups | |].
  - intros i y Hi k.
    assert (y ∈ ys) as Hy by by eapply list_elem_of_lookup_2.
    destruct (first_position_lookup y ys Hy) as [Hk Hbefore].
    pose proof (distinct_count_pos y ys Hy) as Hpos. fold n in Hpos.
    split_and!; [done | done | | |].
    + unfold claimed_fractions. by rewrite list_lookup_fmap, Hi.
    + unfold Qle. simpl. rewrite (Zpos_of_nat n Hpos). lia.
    + unfold Qlt. simpl. rewrite (Zpos_of_nat n Hpos). lia.
  - intros i j y Hi Hj. unfold claimed_fractions.
    by rewrite !list_lookup_fmap, Hi, Hj.
Qed.

Lemma tier_color_fractions_witness :
  ∃ fig w' cs kw,
    create_scatter_plot Z.leb id id pretty tiers_data (12, 8)%Q "default" fresh
    = Ok (fig, w', cs) ∧
    scatter_calls cs = [([100; 200; 300]%Z, [5; 5; 4]%Z, kw)] ∧
    c kw = Viridis [0 # 2; 0 # 2; 2 # 2].
Proof.
  destruct (tier_color_fractions Z.leb id id pretty tiers_data (12, 8)%Q
              "default" fresh)
    as (fig & w' & cs & kw & fracs & Hrun & Hscatter & Hc & _ & _ & Hfrac & _).
  { simpl. lia. }
  exists fig, w', cs, kw. split_and!; [exact Hrun | exact Hscatter |].
  rewrite Hc. f_equal.
  pose proof (Hfrac 0 5%Z eq_refl) as (_ & _ & H0 & _).
  pose proof (Hfrac 1 5%Z eq_refl) as (_ & _ & H1 & _).
  pose proof (Hfrac 2 4%Z eq_refl) as (_ & _ & H2 & _).
  assert (length fracs = 3) as Hlen.
  { vm_compute in Hrun. injection Hrun as <- <- <-.
    vm_compute in Hscatter. injection Hscatter as <-.
    simpl in Hc. by injection Hc as <-. }
  destruct fracs as [|q0 [|q1 [|q2 [|q3 fracs]]]]; by simplify_eq/=.
Defined.

(** C10 as stated fails at the boundary: in the y-values 5, 5, 4 the value 4
    first occurs at index 2, which is the number of distinct y-values, and
    its fraction is 2/2, which does not exceed 1. *)
Lemma fraction_at_boundary_is_one :
  first_position 4%Z [5; 5; 4]%Z = 2 ∧
  distinct_count [5; 5; 4]%Z = 2 ∧
  distinct_count [5; 5; 4]%Z ≤ first_position 4%Z [5; 5; 4]%Z ∧
  (λ r, scatter_calls r.2) <$>
    create_scatter_plot Z.leb id id pretty tiers_data (12, 8)%Q "default" fresh
  = Ok [([100; 200; 300]%Z, [5; 5; 4]%Z,
         ScatterKwargs 100 (Viridis [0 # 2; 0 # 2; 2 # 2]) 0.6 "white" 1.5 2)] ∧
  ¬ (1 < 2 # 2)%Q.
Proof. by split_and!. Qed.

(** * More of the program *)

(** ** Strings *)

Lemma lower_ascii_idemp (ch : ascii) : lower_ascii (lower_ascii ch) = lower_ascii ch.
Proof. by destruct ch as [[] [] [] [] [] [] [] []]. Qed.

Lemma lower_idemp (text : string) : lower (lower text) = lower text.
Proof.
  induction text as [|ch text IH]; [done |].
  simpl. by rewrite lower_ascii_idemp, IH.
Qed.

Lemma append_assoc (a b d : string) : (a +:+ b) +:+ d = a +:+ b +:+ d.
Proof.
  induction a as [|ch a IH]; [done |].
  change (String ch ((a +:+ b) +:+ d) = String ch (a +:+ b +:+ d)).
  by rewrite IH.
Qed.

Lemma prefix_split (needle text : string) :
  String.prefix needle text = true → ∃ rest, text = needle +:+ rest.
Proof.
  revert text. induction needle as [|ch needle IH]; intros text Hp.
  - by exists text.
  - destruct text as [|ch' text]; [done |]. simpl in Hp.
    destruct (ascii_dec ch ch') as [->|]; [|done].
    destruct (IH text Hp) as [rest ->]. by exists rest.
Qed.

Lemma prefix_append (needle rest : string) :
  String.prefix needle (needle +:+ rest) = true.
Proof.
  induction needle as [|ch needle IH]; [by destruct rest |].
  simpl. by destruct (ascii_dec ch ch).
Qed.

Lemma prefix_contains (needle text : string) :
  String.prefix needle text = true → contains needle text = true.
Proof. intros Hp. destruct text; cbn [contains]; by rewrite Hp. Qed.

(** [needle in text] holds exactly when [text] is some text, then [needle],
    then some text. *)
Lemma contains_split (needle text : string) :
  contains needle text = true ↔
  ∃ before after, text = before +:+ needle +:+ after.
Proof.
  split.
  - induction text as [|ch text IH]; intros Hc; cbn [contains] in Hc;
      apply orb_true_iff in Hc as [Hp|Hc]; try done.
    + apply prefix_split in Hp as [rest ->]. by exists "", rest.
    + apply prefix_split in Hp as [rest ->]. by exists "", rest.
    + destruct (IH Hc) as (before & after & ->).
      by exists (String ch before), after.
  - intros (before & after & ->).
    induction before as [|ch before IH].
    + change ("" +:+ needle +:+ after) with (needle +:+ after).
      apply prefix_contains, prefix_append.
    + change (String ch before +:+ needle +:+ after)
        with (String ch (before +:+ needle +:+ after)).
      cbn [contains]. rewrite IH. apply orb_true_r.
Qed.

Lemma contains_trans (inner needle text : string) :
  contains inner needle = true → contains needle text = true →
  contains inner text = true.
Proof.
  rewrite !contains_split.
  intros (b1 & a1 & ->) (b2 & a2 & ->).
  exists (b2 +:+ b1), (a1 +:+ a2). by rewrite !append_assoc.
Qed.

(** ** The column heuristics *)

Lemma next_filter_lower (P : string → bool) (cols : list string)
    (default : string) :
  (∀ col, P (lower col) = P col) →
  lower (next (filter P cols) default)
  = next (filter P (lower <$> cols)) (lower default).
Proof.
  intros HP. induction cols as [|col cols IH]; [done |].
  rewrite fmap_cons, !filter_cons, HP.
  destruct (decide (P col)); [done | exact IH].
Qed.

(** X1: the choice of the label, x and y columns does not depend on the case
    of the header: on the lowercased header each heuristic chooses the
    lowercase of the column it chooses on the header as given. *)
Theorem column_detection_ignores_case (cols : list string) (c0 c1 c2 : string) :
  lower (next (filter is_label_col cols) c0)
  = next (filter is_label_col (lower <$> cols)) (lower c0) ∧
  lower (next (filter is_x_col cols) c1)
  = next (filter is_x_col (lower <$> cols)) (lower c1) ∧
  lower (next (filter is_y_col cols) c2)
  = next (filter is_y_col (lower <$> cols)) (lower c2).
Proof.
  split_and!; apply next_filter_lower; intros col;
    unfold is_label_col, is_x_col, is_y_col; by rewrite lower_idemp.
Qed.

(** X3: the keyword "quality" never decides: a name that contains it contains
    "y", so the y heuristic is the test for "y" or "tier". *)
Theorem quality_keyword_subsumed (col : string) :
  is_y_col col = contains "y" (lower col) || contains "tier" (lower col).
Proof.
  unfold is_y_col.
  destruct (contains "y" (lower col)) eqn:Hy; [done |].
  destruct (contains "quality" (lower col)) eqn:Hq; [|done].
  by rewrite (contains_trans "y" "quality" (lower col)) in Hy.
Qed.

(** X2: when no column name holds an x keyword, the name of the second
    column holds a y keyword and the name of the first does not, the second
    column is taken for x (by position) and for y (by name): both axis texts
    are its name and every point has equal x and y. *)
Theorem x_and_y_same_column {Cell : Type}
    (read_csv : string → result (DataFrame.t Cell))
    (source : string) (df : DataFrame.t Cell) (c0 c1 : string) :
  read_csv source = Ok df →
  DataFrame.rectangular df = true →
  3 ≤ length (DataFrame.columns df) →
  DataFrame.columns df !! 0 = Some c0 →
  DataFrame.columns df !! 1 = Some c1 →
  filter is_x_col (DataFrame.columns df) = [] →
  is_y_col c0 = false →
  is_y_col c1 = true →
  ∃ d, load_csv_file read_csv source = Ok d ∧
       xlabel d = Some c1 ∧ ylabel d = Some c1 ∧
       length (points d) = length (DataFrame.rows df) ∧
       Forall (λ p, p_x p = p_y p) (points d).
Proof.
  intros Hread Hrect Hlen H0 H1 Hnox Hy0 Hy1.
  destruct (load_csv_file_Ok read_csv source df Hread Hrect Hlen)
    as (c0' & c1' & c2 & pts & H0' & H1' & H2 & Hload & Hpts).
  simpl in H0', H1'. rewrite H0 in H0'. rewrite H1 in H1'. simplify_eq.
  rewrite Hnox in Hload, Hpts. simpl in Hload, Hpts.
  assert (next (filter is_y_col (DataFrame.columns df)) c2 = c1') as Hycol.
  { destruct (DataFrame.columns df) as [|a [|b cols]]; simplify_eq/=.
    rewrite !filter_cons.
    rewrite decide_False by (rewrite Hy0; by intros []).
    by rewrite decide_True by (by rewrite Hy1). }
  rewrite Hycol in Hload, Hpts.
  eexists. split; [exact Hload |]. simpl. split_and!; [done | done | |].
  - symmetry. by eapply Forall2_length.
  - apply Forall_forall. intros p Hp.
    apply list_elem_of_lookup in Hp as [i Hp].
    destruct (Forall2_lookup_r _ _ _ _ _ Hpts Hp) as (row & _ & _ & Hx & Hy).
    congruence.
Qed.

Lemma x_and_y_same_column_witness :
  ∃ d, load_csv_file latency_read_csv latency_csv = Ok d ∧
       xlabel d = Some "latency" ∧ ylabel d = Some "latency" ∧
       length (points d) = 1 ∧
       Forall (λ p, p_x p = p_y p) (points d).
Proof.
  by apply (x_and_y_same_column latency_read_csv latency_csv latency_df
              "model" "latency").
Defined.

(** ** The plot: axis texts, ticks, styles *)

Lemma omap_ax_text_None {L N B : Type} (f : @call L N → option B)
    (ts : list (@Text L N)) :
  (∀ t, f (ax_text t) = None) → omap f (ax_text <$> ts) = [].
Proof.
  intros Hf. induction ts as [|t ts IH]; [done |].
  rewrite fmap_cons. cbn [omap list_omap]. by rewrite Hf.
Qed.

Section MorePlotProperties.
Context {L N : Type} `{EqDecision N}.
Variable leb : N → N → bool.
Variable to_int : N → Z.
Variable of_int : Z → N.
Variable str : N → string.

(** The axis texts and the tick calls of a run. *)
Lemma create_scatter_plot_decorations (d : data L N) (figsize : Q * Q)
    (style : string) (w : pyplot) :
  let ys := p_y <$> points d in
  let rc :=
    if bool_decide (style ≠ "default") then style :: rc_styles w
    else rc_styles w in
  ∃ cs,
    create_scatter_plot leb to_int of_int str d figsize style w
    = Ok (MkFigure (S (fignums w)) figsize rc, PyPlot rc (S (fignums w)), cs) ∧
    axis_text_calls cs
    = [ax_set_xlabel (get (xlabel d) "X") 12 "bold";
       ax_set_ylabel (get (ylabel d) "Y") 12 "bold";
       ax_set_title (get (title d) "Scatter Plot") 14 "bold" 20] ∧
    tick_calls cs
    = if (distinct_count ys <=? 10)%nat
      then [ax_set_yticks (sorted leb (set_ ys));
            ax_set_yticklabels
              (tick_label to_int of_int str <$> sorted leb (set_ ys))]
      else [].
Proof.
  intros ys rc. eexists. split; [apply create_scatter_plot_run |].
  fold ys. unfold axis_text_calls, tick_calls.
  rewrite !omap_app, !omap_ax_text_None by done.
  destruct (bool_decide (style ≠ "default")),
    (distinct_count ys <=? 10)%nat; by simpl.
Qed.



Lemma distinct_count_NoDup (ys : list N) :
  NoDup ys → distinct_count ys = length ys.
Proof.
  induction 1 as [|y ys Hnotin _ IH]; [done |]. simpl.
  rewrite decide_False by done. by rewrite IH.
Qed.

Lemma first_position_NoDup (ys : list N) (i : nat) (y : N) :
  NoDup ys → ys !! i = Some y → first_position y ys = i.
Proof.
  intros Hnodup Hi.
  assert (y ∈ ys) as Hy by by eapply list_elem_of_lookup_2.
  destruct (first_position_lookup y ys Hy) as [Hk _].
  by eapply NoDup_lookup.
Qed.
End MorePlotProperties.





(** X6: with more than 10 distinct y-values every point is drawn in
    "steelblue" and the y-ticks are left alone: no tick call is made. *)
Theorem many_y_values_one_colour {L N : Type} `{EqDecision N}
    (leb : N → N → bool) (to_int : N → Z) (of_int : Z → N) (str : N → string)
    (d : data L N) (figsize : Q * Q) (style : string) (w : pyplot) :
  10 < distinct_count (p_y <$> points d) →
  ∃ fig w' cs,
    create_scatter_plot leb to_int of_int str d figsize style w
    = Ok (fig, w', cs) ∧
    scatter_calls cs
    = [(p_x <$> points d, p_y <$> points d,
        ScatterKwargs 100 (ColorName "steelblue") 0.6 "white" 1.5 2)] ∧
    tick_calls cs = [].
Proof.
  intros Hn.
  destruct (create_scatter_plot_decorations leb to_int of_int str d figsize
              style w) as (cs & Hrun & _ & Hticks).
  destruct (create_scatter_plot_calls leb to_int of_int str d figsize style w)
    as (fig' & w'' & cs' & Hrun' & Hscatter & _).
  rewrite Hrun in Hrun'. injection Hrun' as <- <- <-.
  assert ((distinct_count (p_y <$> points d) <=? 10)%nat = false) as Hbranch
    by (apply Nat.leb_gt; lia).
  rewrite Hbranch in Hticks, Hscatter.
  by eexists _, _, cs.
Qed.

Lemma many_y_values_one_colour_witness :
  ∃ fig w' cs,
    create_scatter_plot Z.leb id id pretty eleven_tiers (12, 8)%Q "default"
      fresh = Ok (fig, w', cs) ∧
    scatter_calls cs
    = [(p_x <$> points eleven_tiers, p_y <$> points eleven_tiers,
        ScatterKwargs 100 (ColorName "steelblue") 0.6 "white" 1.5 2)] ∧
    tick_calls cs = [].
Proof.
  apply (many_y_values_one_colour Z.leb id id pretty eleven_tiers).
  simpl. lia.
Defined.

(** X7: a style other than "default" stays in force: a later call with
    style "default" applies no style sheet, so its figure is still created
    under the style of the earlier call; every call opens one more figure
    and closes none. *)
Theorem style_persists_across_calls {L N : Type} `{EqDecision N}
    (leb : N → N → bool) (to_int : N → Z) (of_int : Z → N) (str : N → string)
    (d1 d2 : data L N) (figsize1 figsize2 : Q * Q) (style : string)
    (w : pyplot) :
  style ≠ "default" →
  ∃ fig1 w1 cs1 fig2 w2 cs2,
    create_scatter_plot leb to_int of_int str d1 figsize1 style w
    = Ok (fig1, w1, cs1) ∧
    create_scatter_plot leb to_int of_int str d2 figsize2 "default" w1
    = Ok (fig2, w2, cs2) ∧
    fig_rc fig1 = style :: rc_styles w ∧
    fig_rc fig2 = style :: rc_styles w ∧
    rc_styles w2 = style :: rc_styles w ∧
    number fig1 = S (fignums w) ∧
    number fig2 = S (S (fignums w)) ∧
    fignums w2 = S (S (fignums w)).
Proof.
  intros Hstyle.
  destruct (create_scatter_plot_decorations leb to_int of_int str d1 figsize1
              style w) as (cs1 & Hrun1 & _).
  rewrite bool_decide_true in Hrun1 by done.
  eexists _, _, cs1. 
  destruct (create_scatter_plot_decorations leb to_int of_int str d2 figsize2
              "default" (PyPlot (style :: rc_styles w) (S (fignums w))))
    as (cs2 & Hrun2 & _).
  rewrite bool_decide_false in Hrun2 by (by intros []).
  eexists _, _, cs2. by split_and!.
Qed.

Lemma style_persists_across_calls_witness :
  ∃ fig1 w1 cs1 fig2 w2 cs2,
    create_scatter_plot Z.leb id id pretty tiers_data (12, 8)%Q "ggplot" fresh
    = Ok (fig1, w1, cs1) ∧
    create_scatter_plot Z.leb id id pretty ladder_data (12, 8)%Q "default" w1
    = Ok (fig2, w2, cs2) ∧
    fig_rc fig2 = ["ggplot"] ∧ number fig2 = 2.
Proof.
  destruct (style_persists_across_calls Z.leb id id pretty tiers_data
              ladder_data (12, 8)%Q (12, 8)%Q "ggplot" fresh)
    as (fig1 & w1 & cs1 & fig2 & w2 & cs2 & Hrun1 & Hrun2 & _ & Hrc & _ & _
        & Hnum & _).
  { done. }
  by exists fig1, w1, cs1, fig2, w2, cs2.
Defined.

(** X8: when the y-values are pairwise distinct (and at most 10), the colour
    fraction of the i-th point is i divided by the number of points: the
    colours follow the order of the input, not the order of the y-values. *)
Theorem distinct_y_colours_follow_input_order {L N : Type} `{EqDecision N}
    (leb : N → N → bool) (to_int : N → Z) (of_int : Z → N) (str : N → string)
    (d : data L N) (figsize : Q * Q) (style : string) (w : pyplot) :
  NoDup (p_y <$> points d) →
  length (points d) ≤ 10 →
  ∃ fig w' cs kw fracs,
    create_scatter_plot leb to_int of_int str d figsize style w
    = Ok (fig, w', cs) ∧
    scatter_calls cs = [(p_x <$> points d, p_y <$> points d, kw)] ∧
    c kw = Viridis fracs ∧
    length fracs = length (points d) ∧
    ∀ i, i < length (points d) →
         fracs !! i = Some (Z.of_nat i # Pos.of_nat (length (points d))).
Proof.
  intros Hnodup Hlen.
  destruct (create_scatter_plot_calls leb to_int of_int str d figsize style w)
    as (fig & w' & cs & Hrun & Hscatter & _).
  rewrite (distinct_count_NoDup _ Hnodup), length_fmap in Hscatter.
  apply Nat.leb_le in Hlen. rewrite Hlen in Hscatter.
  eexists fig, w', cs, _, _.
  split_and!; [exact Hrun | exact Hscatter | done | |].
  - unfold claimed_fractions. by rewrite !length_fmap.
  - intros i Hi. unfold claimed_fractions.
    destruct (lookup_lt_is_Some_2 (p_y <$> points d) i) as [y Hy];
      [by rewrite length_fmap |].
    rewrite list_lookup_fmap, Hy. simpl.
    rewrite (first_position_NoDup _ _ _ Hnodup Hy).
    by rewrite (distinct_count_NoDup _ Hnodup), length_fmap.
Qed.

Lemma distinct_y_colours_follow_input_order_witness :
  ∃ fig w' cs kw,
    create_scatter_plot Z.leb id id pretty ladder_data (12, 8)%Q "default" fresh
    = Ok (fig, w', cs) ∧
    scatter_calls cs = [([1; 2; 3]%Z, [30; 10; 20]%Z, kw)] ∧
    c kw = Viridis [0 # 3; 1 # 3; 2 # 3].
Proof.
  destruct (distinct_y_colours_follow_input_order Z.leb id id pretty
              ladder_data (12, 8)%Q "default" fresh)
    as (fig & w' & cs & kw & fracs & Hrun & Hscatter & Hc & Hlen & Hfrac).
  { apply (bool_decide_unpack (NoDup _)). by vm_compute. }
  { simpl. lia. }
  exists fig, w', cs, kw. split_and!; [exact Hrun | exact Hscatter |].
  rewrite Hc. f_equal.
  pose proof (Hfrac 0 ltac:(simpl; lia)) as H0.
  pose proof (Hfrac 1 ltac:(simpl; lia)) as H1.
  pose proof (Hfrac 2 ltac:(simpl; lia)) as H2.
  destruct fracs as [|q0 [|q1 [|q2 [|q3 fracs]]]]; by simplify_eq/=.
Defined.


(** ** Detecting the format of a file and loading it *)

Section FileProperties.
Context {Cell Json : Type}.
Variable json_loads : string → result Json.
Variable read_csv : string → result (DataFrame.t Cell).
Variable read_file : string → result string.
Variable suffix : string → string.
Variable strip : string → string.

(** What the content decides when the extension does not. *)
Lemma detect_by_content (filepath : string) :
  lower (suffix filepath) ≠ ".csv" →
  lower (suffix filepath) ≠ ".json" →
  detect_file_format json_loads read_file suffix strip filepath
  = match read_file filepath with
    | Ok content =>
        match json_loads (strip content) with
        | Ok _ => Ok "json"
        | Raise _ => Ok "csv"
        end
    | Raise _ => Ok "csv"
    end.
Proof.
  intros Hcsv Hjson. unfold detect_file_format.
  rewrite !decide_False by done.
  destruct (read_file filepath) as [content|e]; simpl; [|done].
  destruct (json_loads (strip content)) as [doc|e]; simpl; [done |].
  by destruct (decide (e = JSONDecodeError)).
Qed.
End FileProperties.

(** X10: [detect_file_format] never raises: whatever opening, reading or
    parsing the file raises, the answer is "csv" or "json". *)
Theorem detect_file_format_never_raises {Json : Type}
    (json_loads : string → result Json) (read_file : string → result string)
    (suffix : string → string) (strip : string → string) (filepath : string) :
  detect_file_format json_loads read_file suffix strip filepath = Ok "csv" ∨
  detect_file_format json_loads read_file suffix strip filepath = Ok "json".
Proof.
  destruct (decide (lower (suffix filepath) = ".csv")) as [Hcsv|Hcsv].
  { left. unfold detect_file_format. by rewrite decide_True. }
  destruct (decide (lower (suffix filepath) = ".json")) as [Hjson|Hjson].
  { right. unfold detect_file_format.
    rewrite decide_False by done. by rewrite decide_True. }
  rewrite detect_by_content by done.
  destruct (read_file filepath) as [content|]; [|by left].
  destruct (json_loads (strip content)); [by right | by left].
Qed.

(** X11: the answer is "json" exactly when the extension is .json in any
    case, or the extension is neither .csv nor .json, the file can be read
    and its stripped content parses as JSON; a .csv extension, in any case,
    gives "csv" without a look at the content. *)
Theorem detect_file_format_json_iff {Json : Type}
    (json_loads : string → result Json) (read_file : string → result string)
    (suffix : string → string) (strip : string → string) (filepath : string) :
  detect_file_format json_loads read_file suffix strip filepath = Ok "json" ↔
  lower (suffix filepath) = ".json" ∨
  (lower (suffix filepath) ≠ ".csv" ∧
   ∃ content doc,
     read_file filepath = Ok content ∧ json_loads (strip content) = Ok doc).
Proof.
  destruct (decide (lower (suffix filepath) = ".csv")) as [Hcsv|Hcsv].
  { unfold detect_file_format. rewrite decide_True by done. split; [done |].
    intros [Hjson|[? _]]; [|done]. by rewrite Hcsv in Hjson. }
  destruct (decide (lower (suffix filepath) = ".json")) as [Hjson|Hjson].
  { unfold detect_file_format. rewrite decide_False by done.
    rewrite decide_True by done. split; [by left | done]. }
  rewrite detect_by_content by done. split.
  - destruct (read_file filepath) as [content|]; [|done].
    destruct (json_loads (strip content)) as [doc|] eqn:Hdoc; [|done].
    intros _. right. split; [done |]. by exists content, doc.
  - intros [?|(_ & content & doc & -> & ->)]; done.
Qed.

(** X12: a file with the extension .json whose content is not JSON makes
    [load_data_file] raise JSONDecodeError: there is no CSV fallback for
    files, while the same text on stdin is read as CSV by [load_stdin]. *)
Theorem json_file_has_no_csv_fallback {Cell Json : Type}
    (json_loads : string → result Json)
    (read_csv : string → result (DataFrame.t Cell))
    (read_file : string → result string)
    (suffix : string → string) (strip : string → string)
    (filepath content : string) :
  lower (suffix filepath) = ".json" →
  read_file filepath = Ok content →
  json_loads content = Raise JSONDecodeError →
  load_data_file json_loads read_csv read_file suffix strip filepath
  = Raise JSONDecodeError ∧
  load_stdin json_loads read_csv content
  = FromCsv <$> load_csv_file read_csv content.
Proof.
  intros Hsuffix Hread Hjson. split; [|by apply load_stdin_csv_branch].
  unfold load_data_file, detect_file_format.
  assert (lower (suffix filepath) ≠ ".csv") as Hcsv
    by (rewrite Hsuffix; done).
  rewrite decide_False by done. rewrite decide_True by done.
  unfold_result. unfold load_json_file. rewrite Hread. unfold_result.
  by rewrite Hjson.
Qed.

Lemma json_file_has_no_csv_fallback_witness :
  load_data_file sample_json_loads files_read_csv sample_read_file
    sample_suffix sample_strip "broken.json" = Raise JSONDecodeError ∧
  ∃ d, load_stdin sample_json_loads files_read_csv models_csv
       = Ok (FromCsv d) ∧ length (points d) = 2.
Proof.
  destruct (json_file_has_no_csv_fallback sample_json_loads files_read_csv
              sample_read_file sample_suffix sample_strip "broken.json"
              models_csv eq_refl eq_refl eq_refl) as [Hfile Hstdin].
  split; [exact Hfile |]. rewrite Hstdin. by eexists.
Defined.

(** X13: for a file whose extension is neither .csv nor .json, the format is
    decided on the stripped content but the document is parsed from the
    content as it is: when the stripped content is JSON, [load_data_file]
    returns, or raises, what [json.loads] does on the unstripped content. *)
Theorem sniffed_json_is_parsed_unstripped {Cell Json : Type}
    (json_loads : string → result Json)
    (read_csv : string → result (DataFrame.t Cell))
    (read_file : string → result string)
    (suffix : string → string) (strip : string → string)
    (filepath content : string) (doc : Json) :
  lower (suffix filepath) ≠ ".csv" →
  lower (suffix filepath) ≠ ".json" →
  read_file filepath = Ok content →
  json_loads (strip content) = Ok doc →
  detect_file_format json_loads read_file suffix strip filepath = Ok "json" ∧
  load_data_file json_loads read_csv read_file suffix strip filepath
  = FromJson <$> json_loads content.
Proof.
  intros Hcsv Hjson Hread Hdoc.
  assert (detect_file_format json_loads read_file suffix strip filepath
          = Ok "json") as Hdetect
    by (rewrite detect_by_content by done; by rewrite Hread, Hdoc).
  split; [exact Hdetect |].
  unfold load_data_file. rewrite Hdetect. unfold_result.
  unfold load_json_file. rewrite Hread. unfold_result.
  by destruct (json_loads content).
Qed.

Lemma sniffed_json_is_parsed_unstripped_witness :
  detect_file_format sample_json_loads sample_read_file sample_suffix
    sample_strip "listing" = Ok "json" ∧
  load_data_file sample_json_loads files_read_csv sample_read_file
    sample_suffix sample_strip "listing" = Raise JSONDecodeError.
Proof.
  destruct (sniffed_json_is_parsed_unstripped sample_json_loads files_read_csv
              sample_read_file sample_suffix sample_strip "listing"
              (form_feed +:+ "[]") EmptyList)
    as [Hdetect Hload]; try done.
Defined.

(** X14: for a file whose extension is neither .csv nor .json and that cannot
    be read, the error is swallowed, the format is taken to be CSV and the
    path is handed to [load_csv_file]. *)
Theorem unreadable_file_is_loaded_as_csv {Cell Json : Type}
    (json_loads : string → result Json)
    (read_csv : string → result (DataFrame.t Cell))
    (read_file : string → result string)
    (suffix : string → string) (strip : string → string)
    (filepath : string) (e : exn) :
  lower (suffix filepath) ≠ ".csv" →
  lower (suffix filepath) ≠ ".json" →
  read_file filepath = Raise e →
  detect_file_format json_loads read_file suffix strip filepath = Ok "csv" ∧
  load_data_file json_loads read_csv read_file suffix strip filepath
  = FromCsv <$> load_csv_file read_csv filepath.
Proof.
  intros Hcsv Hjson Hread.
  assert (detect_file_format json_loads read_file suffix strip filepath
          = Ok "csv") as Hdetect
    by (rewrite detect_by_content by done; by rewrite Hread).
  split; [exact Hdetect |].
  unfold load_data_file. by rewrite Hdetect.
Qed.

Lemma unreadable_file_is_loaded_as_csv_witness :
  detect_file_format sample_json_loads sample_read_file sample_suffix
    sample_strip "missing" = Ok "csv" ∧
  load_data_file sample_json_loads files_read_csv sample_read_file
    sample_suffix sample_strip "missing"
  = Raise (OtherError "FileNotFoundError").
Proof.
  destruct (unreadable_file_is_loaded_as_csv sample_json_loads files_read_csv
              sample_read_file sample_suffix sample_strip "missing"
              (OtherError "FileNotFoundError"))
    as [Hdetect Hload]; try done.
Defined.
